(** * weather-App: conversational client with a weather tool, and the
      WhatsApp dispatcher

    A shallow embedding of [Gemini_ai_call_mem_tool_v2.py] and [tools.py].

    - Python [str] values are sequences of Unicode code points
      ([list N]); string literals of the source are written as UTF-8
      Rocq strings and decoded by [lit].
    - Code that can raise returns an [outcome]; methods that mutate
      [self] are state-passing functions, and a [try]/[except] keeps the
      mutations made before the exception, as Python does.
    - The remote services (the model API, the weather endpoint, Twilio,
      the clock, the job-id generator) and the library functions whose
      code is not part of the repository ([json.loads], [urllib.quote],
      [float], [timedelta]) are fields of a [World] record: every theorem
      holds for every behaviour of theirs.
    - [print] and [logger] calls have no effect on the values the claims
      speak about and are left out. *)

From Stdlib Require Import String Ascii.
From stdpp Require Import gmap list fin_maps.

Set Warnings "-register-all".
Local Open Scope N_scope.

(* ===================================================================== *)
(** ** Python strings *)
(* ===================================================================== *)

Module PyStr.

Abbreviation pystr := (list N).

(** UTF-8 decoding of a well-formed byte sequence (the source files are
    UTF-8; a truncated sequence ends the text). *)
Fixpoint utf8_decode (bs : list N) : pystr :=
  match bs with
  | [] => []
  | b0 :: r0 =>
    if b0 <? 128 then b0 :: utf8_decode r0
    else match r0 with
    | [] => []
    | b1 :: r1 =>
      if b0 <? 224 then (b0 mod 32 * 64 + b1 mod 64) :: utf8_decode r1
      else match r1 with
      | [] => []
      | b2 :: r2 =>
        if b0 <? 240
        then (b0 mod 16 * 4096 + b1 mod 64 * 64 + b2 mod 64) :: utf8_decode r2
        else match r2 with
        | [] => []
        | b3 :: r3 =>
          (b0 mod 8 * 262144 + b1 mod 64 * 4096 + b2 mod 64 * 64 + b3 mod 64)
            :: utf8_decode r3
        end
      end
    end
  end.

(** A string literal of the source. *)
Definition lit (s : string) : pystr :=
  utf8_decode (map N_of_ascii (list_ascii_of_string s)).
Arguments lit : simpl never.

(** [str.isspace] on one character: the code points CPython's
    [_PyUnicode_IsWhitespace] accepts. *)
Definition isspace (c : N) : bool :=
  ((9 <=? c) && (c <=? 13)) || ((28 <=? c) && (c <=? 32))
  || (c =? 133) || (c =? 160) || (c =? 5760)
  || ((8192 <=? c) && (c <=? 8202))
  || (c =? 8232) || (c =? 8233) || (c =? 8239) || (c =? 8287)
  || (c =? 12288).

(** [s.lstrip()] *)
Fixpoint lstrip (s : pystr) : pystr :=
  match s with
  | [] => []
  | c :: r => if isspace c then lstrip r else s
  end.

(** [s.rstrip()] *)
Definition rstrip (s : pystr) : pystr := rev (lstrip (rev s)).

(** [s.strip()] *)
Definition strip (s : pystr) : pystr := rstrip (lstrip s).

(** [s.lstrip(chars)] for a one-character [chars]. *)
Fixpoint lstrip_char (ch : N) (s : pystr) : pystr :=
  match s with
  | [] => []
  | c :: r => if c =? ch then lstrip_char ch r else s
  end.

(** [s.startswith(p)] *)
Fixpoint startswith (s p : pystr) {struct p} : bool :=
  match p with
  | [] => true
  | a :: p' =>
    match s with
    | [] => false
    | b :: s' => (a =? b) && startswith s' p'
    end
  end.

(** [s == t] *)
Definition eqb (s t : pystr) : bool := bool_decide (s = t).

(** [sep.join(l)] *)
Fixpoint join (sep : pystr) (l : list pystr) : pystr :=
  match l with
  | [] => []
  | [x] => x
  | x :: r => x ++ sep ++ join sep r
  end.

(** The literal ["\n"]. *)
Definition newline : pystr := [10].

(** Truthiness of a string: the empty string is falsy. *)
Definition truthy (s : pystr) : bool :=
  match s with [] => false | _ => true end.

End PyStr.
Import PyStr.

(* ===================================================================== *)
(** ** Python values, exceptions, outcomes *)
(* ===================================================================== *)

Module Py.

(** The values that travel through the program: JSON data decoded by
    [response.json()] and [json.loads], tool-call argument payloads, and
    the [delay_hours] argument.  A float is identified by its [repr]
    (Python's [repr] of a float determines the float). *)
Inductive pyval :=
| PNone
| PBool (b : bool)
| PInt (z : Z)
| PFloat (repr : pystr)
| PStr (s : pystr)
| PList (l : list pyval)
| PDict (d : gmap pystr pyval).

(** Exception classes raised by the modelled code; all derive from
    [Exception]. [OtherError] stands for whatever a remote service or a
    library raises. *)
Inductive exn_class :=
| KeyError | IndexError | TypeError | AttributeError | ValueError
| OverflowError | JobLookupError | ConflictingIdError | OtherError.

(** An exception: its class and the text [str(e)] gives. *)
Record exn := Exn { exn_cls : exn_class; exn_str : pystr }.

Inductive outcome (A : Type) :=
| Return (a : A)
| Raise (e : exn).
Arguments Return {A} a.
Arguments Raise {A} e.

(** [type(v).__name__] *)
Definition type_name (v : pyval) : pystr :=
  match v with
  | PNone => lit "NoneType"
  | PBool _ => lit "bool"
  | PInt _ => lit "int"
  | PFloat _ => lit "float"
  | PStr _ => lit "str"
  | PList _ => lit "list"
  | PDict _ => lit "dict"
  end.

(** [repr(k)] for a key without quotes, backslashes or control characters
    (all the literal keys of the source are such). *)
Definition repr_key (k : pystr) : pystr := lit "'" ++ k ++ lit "'".

Definition no_attribute (v : pyval) (attr : pystr) : exn :=
  Exn AttributeError
      (lit "'" ++ type_name v ++ lit "' object has no attribute '" ++ attr ++ lit "'").

Definition not_subscriptable (v : pyval) : exn :=
  Exn TypeError (lit "'" ++ type_name v ++ lit "' object is not subscriptable").

(** [v[k]] for a string key [k]. *)
Definition getitem_key (v : pyval) (k : pystr) : outcome pyval :=
  match v with
  | PDict d =>
    match d !! k with
    | Some x => Return x
    | None => Raise (Exn KeyError (repr_key k))
    end
  | PList _ => Raise (Exn TypeError (lit "list indices must be integers or slices, not str"))
  | PStr _ => Raise (Exn TypeError (lit "string indices must be integers, not 'str'"))
  | _ => Raise (not_subscriptable v)
  end.

(** [v[0]]; the keys of the dicts of the model are strings, so [0] is
    never among them. *)
Definition getitem_0 (v : pyval) : outcome pyval :=
  match v with
  | PList (x :: _) => Return x
  | PList [] => Raise (Exn IndexError (lit "list index out of range"))
  | PStr (c :: _) => Return (PStr [c])
  | PStr [] => Raise (Exn IndexError (lit "string index out of range"))
  | PDict _ => Raise (Exn KeyError (lit "0"))
  | _ => Raise (not_subscriptable v)
  end.

(** [v.get(k, default)] *)
Definition get (v : pyval) (k : pystr) (dflt : pyval) : outcome pyval :=
  match v with
  | PDict d => Return (default dflt (d !! k))
  | _ => Raise (no_attribute v (lit "get"))
  end.

(** [v.strip()] *)
Definition strip_val (v : pyval) : outcome pystr :=
  match v with
  | PStr s => Return (strip s)
  | _ => Raise (no_attribute v (lit "strip"))
  end.

End Py.

(* ===================================================================== *)
(** ** Gemini_ai_call_mem_tool_v2.py: [OpenAIClientWithMemoryAndTools] *)
(* ===================================================================== *)

Module Chat.
Import Py.

(** An entry of [self.conversation_history]: [{"role": r, "content": c}]. *)
Record Msg := { role : pystr; content : pystr }.

(** An entry of [formatted_history]:
    [{"role": r, "parts": [{"text": t}]}]. *)
Record GMsg := { g_role : pystr; g_text : pystr }.

Record GenerationConfig := { temperature : pyval; max_output_tokens : Z }.

(** [part.function_call]: its [name] and its [args]. The elements of
    [tool_calls], [{"name": .., "arguments": ..}], carry the same two
    values. *)
Record FunctionCall := { name : pystr; arguments : pyval }.

(** A part of the model's reply. [function_call = None] is an unset
    (falsy) function call; [text = None] is a part without a [text]
    attribute. *)
Record Part := { function_call : option FunctionCall; text : option pystr }.

(** [response.candidates[i].content]; [parts = None] is a content without
    a [parts] attribute. *)
Record Content := { parts : option (list Part) }.

(** A reply of the model API: its candidates, and what the [.text]
    accessor gives (it raises when the reply has no text). *)
Record Response := { candidates : list Content; resp_text : outcome pystr }.

(** A reply of [requests.get]. *)
Record HttpResponse := { raise_for_status : outcome unit; json : outcome pyval }.

Record ToolResult := { tool_call_id : pystr; tr_content : pystr }.

(** What the client does to the outside, in order.  The two model events
    also record the conversation history as it is when the call is made. *)
Inductive Event :=
| EvStartChat (snapshot : list Msg) (history : list GMsg)
| EvSendMessage (snapshot : list Msg) (message : pystr) (tools : list pystr)
| EvGetWeather (city : pyval)
| EvHttpGet (url : pystr).

(** The object: [self.api_key], [self.model], [self.conversation_history],
    and the events so far. *)
Record Client := {
  api_key : pystr;
  model : pystr;
  conversation_history : list Msg;
  trace : list Event
}.

(** The outside of one turn. [requests_get] is indexed by the number of
    events before the request, so two requests of one turn may differ. *)
Record World := {
  chat : Type;
  start_chat : list GMsg -> outcome chat;
  send_message : chat -> pystr -> GenerationConfig -> list pystr ->
                 outcome (Response * chat);
  json_loads : pystr -> outcome pyval;
  quote : pystr -> outcome pystr;
  requests_get : nat -> pystr -> outcome HttpResponse;
  str_other : pyval -> pystr
}.

(** [str(v)] as an f-string field gives it: the string itself, and for
    the other values what Python prints. *)
Definition fmt (w : World) (v : pyval) : pystr :=
  match v with
  | PStr s => s
  | _ => str_other w v
  end.

(** *** State and exceptions *)

Definition M (A : Type) : Type := Client -> outcome A * Client.

Definition ret {A} (a : A) : M A := fun st => (Return a, st).

Definition bind {A B} (m : M A) (k : A -> M B) : M B :=
  fun st =>
    match m st with
    | (Return a, st') => k a st'
    | (Raise e, st') => (Raise e, st')
    end.

(** [try: body except Exception as e: handler e] *)
Definition try_except {A} (body : M A) (handler : exn -> M A) : M A :=
  fun st =>
    match body st with
    | (Return a, st') => (Return a, st')
    | (Raise e, st') => handler e st'
    end.

Definition lift {A} (o : outcome A) : M A := fun st => (o, st).

Declare Scope py_scope.
Delimit Scope py_scope with py.
Notation "x <- m ;; k" := (bind m (fun x => k))
  (at level 100, m at next level, right associativity) : py_scope.
Notation "' ( x , y ) <- m ;; k" := (bind m (fun p => let '(x, y) := p in k))
  (at level 100, x name, y name, m at next level, right associativity) : py_scope.
Notation "m ;; k" := (bind m (fun _ => k))
  (at level 100, right associativity) : py_scope.
Local Open Scope py_scope.

Definition with_history (st : Client) (h : list Msg) : Client :=
  {| api_key := api_key st; model := model st;
     conversation_history := h; trace := trace st |}.

Definition with_trace (st : Client) (t : list Event) : Client :=
  {| api_key := api_key st; model := model st;
     conversation_history := conversation_history st; trace := t |}.

Definition read_history : M (list Msg) :=
  fun st => (Return (conversation_history st), st).

(** [self.conversation_history.append(m)] *)
Definition append (m : Msg) : M unit :=
  fun st => (Return tt, with_history st (conversation_history st ++ [m])).

Definition emit (ev : Event) : M unit :=
  fun st => (Return tt, with_trace st (trace st ++ [ev])).

(** [self.client.start_chat(history=h)] *)
Definition call_start_chat (w : World) (h : list GMsg) : M (chat w) :=
  fun st =>
    (start_chat w h,
     with_trace st (trace st ++ [EvStartChat (conversation_history st) h])).

(** [chat.send_message(msg, generation_config=cfg, tools=tools, ..)] *)
Definition call_send_message (w : World) (c : chat w) (msg : pystr)
    (cfg : GenerationConfig) (tools : list pystr) : M (Response * chat w) :=
  fun st =>
    (send_message w c msg cfg tools,
     with_trace st (trace st ++ [EvSendMessage (conversation_history st) msg tools])).

(** [requests.get(url, timeout=6)] *)
Definition call_requests_get (w : World) (url : pystr) : M HttpResponse :=
  fun st =>
    (requests_get w (length (trace st)) url,
     with_trace st (trace st ++ [EvHttpGet url])).

(** *** [__init__] *)

Definition truthy_opt (o : option pystr) : bool :=
  match o with Some s => truthy s | None => false end.

Definition key_required : exn :=
  Exn ValueError (lit "GEMENI API key is required. Set GEMINI_API_KEY environment variable or pass api_key parameter.").

(** [api_key or os.getenv("GEMINI_API_KEY")], then the check.
    [genai.configure] and [genai.GenerativeModel] only store their
    arguments. *)
Definition init (api_key_arg : option pystr) (model_arg : pystr)
    (environ : gmap pystr pystr) : outcome Client :=
  let key := if truthy_opt api_key_arg then api_key_arg
             else environ !! lit "GEMINI_API_KEY" in
  match key with
  | Some k =>
    if truthy k
    then Return {| api_key := k; model := model_arg;
                   conversation_history := []; trace := [] |}
    else Raise key_required
  | None => Raise key_required
  end.

(** *** [get_weather] *)

Definition get_weather (w : World) (city : pyval) : M pystr :=
  emit (EvGetWeather city) ;;
  try_except
    (city_s <- lift (strip_val city) ;;
     city_enc <- lift (quote w city_s) ;;
     let url := lit "https://wttr.in/" ++ city_enc ++ lit "?format=j1&m&lang=en" in
     response <- call_requests_get w url ;;
     lift (raise_for_status response) ;;
     data <- lift (json response) ;;
     cc <- lift (getitem_key data (lit "current_condition")) ;;
     cur <- lift (getitem_0 cc) ;;
     temp_c <- lift (get cur (lit "temp_C") (PStr (lit "N/A"))) ;;
     wd <- lift (getitem_key cur (lit "weatherDesc")) ;;
     wd0 <- lift (getitem_0 wd) ;;
     condition <- lift (getitem_key wd0 (lit "value")) ;;
     humidity <- lift (get cur (lit "humidity") (PStr (lit "N/A"))) ;;
     wind_kmph <- lift (get cur (lit "windspeedKmph") (PStr (lit "N/A"))) ;;
     feels_like_c <- lift (get cur (lit "FeelsLikeC") (PStr (lit "N/A"))) ;;
     ret (lit "🌤️ Weather in " ++ fmt w city ++ lit ": " ++ fmt w temp_c
          ++ lit "°C, " ++ fmt w condition
          ++ lit ", Humidity: " ++ fmt w humidity
          ++ lit "%, Wind: " ++ fmt w wind_kmph
          ++ lit " km/h, Feels like: " ++ fmt w feels_like_c ++ lit "°C"))
    (fun e => ret (lit "Error fetching weather for " ++ fmt w city
                   ++ lit ": " ++ exn_str e)).

(** *** [chat_completion_with_tools] *)

(** One entry of [formatted_history] (every stored entry has a "content"
    key, so none is skipped). *)
Definition format_msg (msg : Msg) : GMsg :=
  {| g_role := if eqb (role msg) (lit "user") then lit "user" else lit "model";
     g_text := content msg |}.

(** The names of the declared tools ([tools], one function). *)
Definition tools : list pystr := [lit "get_weather"].

(** The loop over [response_message.parts]: text is accumulated, function
    calls are collected. *)
Fixpoint scan_parts (ps : list Part) (response_text : pystr)
    (tool_calls : list FunctionCall) : pystr * list FunctionCall :=
  match ps with
  | [] => (response_text, tool_calls)
  | part :: rest =>
    match function_call part with
    | Some fc => scan_parts rest response_text (tool_calls ++ [fc])
    | None =>
      match text part with
      | Some t => scan_parts rest (response_text ++ t) tool_calls
      | None => scan_parts rest response_text tool_calls
      end
    end
  end.

(** The argument payload of a get_weather call, made a mapping:
    a string is decoded, and kept as the city when it does not decode;
    [None] is the empty mapping. *)
Definition normalize_args (w : World) (args : pyval) : pyval :=
  match args with
  | PStr s =>
    match json_loads w s with
    | Return v => v
    | Raise _ => PDict {[ lit "city" := PStr s ]}
    end
  | PNone => PDict ∅
  | _ => args
  end.

(** The body of the loop over [tool_calls]: the result appended for one
    tool call. *)
Definition tool_call_result (w : World) (tc : FunctionCall) : M ToolResult :=
  if eqb (name tc) (lit "get_weather") then
    let args := normalize_args w (arguments tc) in
    city <- lift (get args (lit "city") (PStr (lit "Unknown"))) ;;
    tool_result <- get_weather w city ;;
    ret {| tool_call_id := name tc; tr_content := tool_result |}
  else
    ret {| tool_call_id := name tc;
           tr_content := lit "Tool '" ++ name tc ++ lit "' not implemented." |}.

(** The loop over [tool_calls]. *)
Fixpoint run_tool_calls (w : World) (tool_calls : list FunctionCall)
    (tool_results : list ToolResult) : M (list ToolResult) :=
  match tool_calls with
  | [] => ret tool_results
  | tc :: rest =>
    r <- tool_call_result w tc ;;
    run_tool_calls w rest (tool_results ++ [r])
  end.

(** [response.candidates[0].content] *)
Definition first_candidate (r : Response) : outcome Content :=
  match candidates r with
  | c :: _ => Return c
  | [] => Raise (Exn IndexError (lit "list index out of range"))
  end.

Definition user_msg (s : pystr) : Msg := {| role := lit "user"; content := s |}.
Definition assistant_msg (s : pystr) : Msg := {| role := lit "assistant"; content := s |}.
Definition tool_msg (s : pystr) : Msg := {| role := lit "tool"; content := s |}.

(** The local list [messages] built before the [try]: the system message
    if it is truthy, the history, the user message.  Nothing reads it. *)
Definition messages (hist : list Msg) (user_message : pystr)
    (system_message : option pystr) : list Msg :=
  (if truthy_opt system_message
   then [{| role := lit "system"; content := default [] system_message |}]
   else [])
  ++ hist ++ [user_msg user_message].

(** The body of the [try]. *)
Definition chat_completion_body (w : World) (user_message : pystr)
    (max_tokens : Z) (temperature : pyval) : M pystr :=
  hist <- read_history ;;
  let formatted_history := map format_msg hist in
  chat <- call_start_chat w formatted_history ;;
  let cfg := {| temperature := temperature; max_output_tokens := max_tokens |} in
  '(response, chat) <- call_send_message w chat user_message cfg tools ;;
  response_message <- lift (first_candidate response) ;;
  let '(response_text, tool_calls) :=
    scan_parts (default [] (parts response_message)) [] [] in
  match tool_calls with
  | _ :: _ =>
    append (user_msg user_message) ;;
    tool_results <- run_tool_calls w tool_calls [] ;;
    append (assistant_msg (if truthy response_text then response_text else [])) ;;
    append (tool_msg (join newline (map tr_content tool_results))) ;;
    let follow_up := join newline (map tr_content tool_results) in
    '(final_response, chat') <- call_send_message w chat follow_up cfg [] ;;
    final_text <- lift (resp_text final_response) ;;
    let ai_response := strip final_text in
    append (assistant_msg ai_response) ;;
    ret ai_response
  | [] =>
    let ai_response := strip response_text in
    append (user_msg user_message) ;;
    append (assistant_msg ai_response) ;;
    ret ai_response
  end.

(** What the [except] of [chat_completion_with_tools] returns. *)
Definition api_error (e : exn) : pystr :=
  lit "Error making Gemini API call: " ++ exn_str e.

Definition chat_completion_with_tools (w : World) (user_message : pystr)
    (system_message : option pystr) (max_tokens : Z) (temperature : pyval)
    : M pystr :=
  fun st =>
    let messages := messages (conversation_history st) user_message system_message in
    try_except
      (chat_completion_body w user_message max_tokens temperature)
      (fun e => ret (api_error e))
      st.

(** [clear_conversation_history] *)
Definition clear_conversation_history : M unit :=
  fun st => (Return tt, with_history st []).

(** *** Several turns *)

(** One call of [chat_completion_with_tools]: its arguments and the
    outside it runs against. *)
Record Call := {
  call_world : World;
  user_message : pystr;
  system_message : option pystr;
  max_tokens : Z;
  call_temperature : pyval
}.

Definition run_call (c : Call) : M pystr :=
  chat_completion_with_tools (call_world c) (user_message c) (system_message c)
    (max_tokens c) (call_temperature c).

Definition run_body (c : Call) : M pystr :=
  chat_completion_body (call_world c) (user_message c) (max_tokens c)
    (call_temperature c).

(** The calls made one after the other on the same object; the returned
    strings, in call order, and the object afterwards. *)
Fixpoint run_calls (calls : list Call) (st : Client) : list pystr * Client :=
  match calls with
  | [] => ([], st)
  | c :: rest =>
    let '(o, st1) := run_call c st in
    let '(rs, st2) := run_calls rest st1 in
    (match o with Return r => r :: rs | Raise _ => rs end, st2)
  end.


(** *** Observations *)

(** The first remote exchange of a turn: the chat session, then the
    user's message sent to the model. *)
Definition model_reply (w : World) (hist : list Msg) (user_message : pystr)
    (max_tokens : Z) (temperature : pyval) : outcome (Response * chat w) :=
  match start_chat w (map format_msg hist) with
  | Raise e => Raise e
  | Return c =>
    send_message w c user_message
      {| temperature := temperature; max_output_tokens := max_tokens |} tools
  end.

(** The URL [get_weather] requests for a city, or the exception of
    [quote]. *)
Definition weather_url (w : World) (city : pystr) : outcome pystr :=
  match quote w (strip city) with
  | Return city_enc =>
    Return (lit "https://wttr.in/" ++ city_enc ++ lit "?format=j1&m&lang=en")
  | Raise e => Raise e
  end.

(** The events a computation added to the trace. *)
Definition new_events (st st' : Client) : list Event :=
  drop (length (trace st)) (trace st').

(** Weather lookups and HTTP requests, as opposed to model calls. *)
Definition local_event (ev : Event) : Prop :=
  match ev with
  | EvGetWeather _ | EvHttpGet _ => True
  | _ => False
  end.

(** The cities of the weather lookups of a trace, in order. *)
Fixpoint weather_lookups (t : list Event) : list pyval :=
  match t with
  | [] => []
  | EvGetWeather city :: r => city :: weather_lookups r
  | _ :: r => weather_lookups r
  end.


(** HTTP requests. *)
Definition http_event (ev : Event) : Prop :=
  match ev with
  | EvHttpGet _ => True
  | _ => False
  end.

(** A computation that leaves the history as it is and adds only events
    that satisfy [P]. *)
Definition adds_only {A} (P : Event -> Prop) (m : M A) : Prop :=
  forall st, exists evs,
    Forall P evs /\ snd (m st) = with_trace st (trace st ++ evs).

(** The entries a turn appends to the history, by the way the body of
    the [try] ends. *)
Definition appended (um : pystr) (o : outcome pystr) (seg : list Msg) : Prop :=
  match o with
  | Return r =>
    seg = [user_msg um; assistant_msg r]
    \/ exists rt tj, seg = [user_msg um; assistant_msg rt; tool_msg tj; assistant_msg r]
  | Raise _ =>
    seg = [] \/ seg = [user_msg um]
    \/ exists rt tj, seg = [user_msg um; assistant_msg rt; tool_msg tj]
  end.

(** The shapes of a turn that starts with history [h] and user message
    [um]: the events it adds, the history it leaves, and how the body of
    the [try] ends. *)
Inductive turn (h : list Msg) (um : pystr)
  : list Event -> list Msg -> outcome pystr -> Prop :=
| turn_no_session fh e :
    turn h um [EvStartChat h fh] h (Raise e)
| turn_no_reply fh e :
    turn h um [EvStartChat h fh; EvSendMessage h um tools] h (Raise e)
| turn_direct fh r :
    turn h um [EvStartChat h fh; EvSendMessage h um tools]
         (h ++ [user_msg um; assistant_msg r]) (Return r)
| turn_tool_error fh evs e :
    Forall local_event evs ->
    turn h um ([EvStartChat h fh; EvSendMessage h um tools] ++ evs)
         (h ++ [user_msg um]) (Raise e)
| turn_followup_error fh evs rt tj e :
    Forall local_event evs ->
    turn h um
         ([EvStartChat h fh; EvSendMessage h um tools] ++ evs
          ++ [EvSendMessage (h ++ [user_msg um; assistant_msg rt; tool_msg tj]) tj []])
         (h ++ [user_msg um; assistant_msg rt; tool_msg tj]) (Raise e)
| turn_tool_done fh evs rt tj r :
    Forall local_event evs ->
    turn h um
         ([EvStartChat h fh; EvSendMessage h um tools] ++ evs
          ++ [EvSendMessage (h ++ [user_msg um; assistant_msg rt; tool_msg tj]) tj []])
         (h ++ [user_msg um; assistant_msg rt; tool_msg tj; assistant_msg r])
         (Return r).

End Chat.

(* ===================================================================== *)
(** ** tools.py: [Tools] *)
(* ===================================================================== *)

Module Dispatcher.
Import Py.

Local Open Scope Z_scope.

(** The module-level callables a job can name. *)
Inductive JobFunc := run_scheduled_ref | heartbeat_runner_ref.

(** Points in time are microseconds since 0001-01-01T00:00:00 (UTC,
    naive), as [datetime] has them. *)
Inductive Trigger :=
| DateTrigger (run_date : Z)
| IntervalTrigger (seconds : Z).

Record Job := { func : JobFunc; trigger : Trigger; job_args : list pystr }.

(** [twilio.rest.Client(sid, token)] *)
Record TwilioClient := { account_sid : pystr; auth_token : pystr }.

(** What [client.messages.create] returns. *)
Record MessageInstance := { sid : pystr; status : pystr; to : pystr }.

(** A call of [client.messages.create(body=, from_=, to=)]. *)
Record Sent := { sent_body : pystr; sent_from : pystr; sent_to : pystr }.

(** The object: the credentials read at construction, the Twilio client,
    the scheduler's job store (job id to job), and the calls made to
    Twilio so far. *)
Record Tools := {
  tw_sid : option pystr;
  tw_token : option pystr;
  from_whatsapp : option pystr;
  client : option TwilioClient;
  scheduler : gmap pystr Job;
  outbox : list Sent
}.

(** The outside of one operation. *)
Record World := {
  (** the jobs the scheduler holds once it has started (jobs of the
      durable store that were due may already have run and gone), or the
      exception of [SQLAlchemyJobStore] / [scheduler.start()] *)
  scheduler_start : pystr -> outcome (gmap pystr Job);
  (** the exception the scheduler raises in this operation for another
      reason than the job id, if any: a failure of the durable store, or
      a run date it cannot convert *)
  store_fault : option exn;
  (** the run date as the scheduler keeps it (it converts the date
      through a float timestamp) *)
  stored_run_date : Z -> Z;
  (** [repr(s)] of a string; [str(e)] of a [KeyError] is the [repr] of
      its message *)
  repr_str : pystr -> pystr;
  (** [uuid4().hex], the id [add_job] assigns *)
  new_job_id : pystr;
  (** [datetime.utcnow()] *)
  utcnow : Z;
  (** [float(s)] for a string, [float(z)] for an int: the [repr] of the
      float, or the exception *)
  float_of_str : pystr -> outcome pystr;
  float_of_int : Z -> outcome pystr;
  (** [timedelta(hours=f)] in microseconds, for the float of repr [f] *)
  timedelta_hours : pystr -> outcome Z;
  (** [str(d)] for a datetime *)
  str_datetime : Z -> pystr;
  (** [client.messages.create] *)
  messages_create : Sent -> outcome MessageInstance
}.

(** [float(v)] *)
Definition py_float (w : World) (v : pyval) : outcome pystr :=
  match v with
  | PFloat r => Return r
  | PInt z => float_of_int w z
  | PBool b => Return (if b then lit "1.0" else lit "0.0")
  | PStr s => float_of_str w s
  | _ => Raise (Exn TypeError
                  (lit "float() argument must be a string or a real number, not '"
                   ++ type_name v ++ lit "'"))
  end.

(** [datetime.max], in microseconds. *)
Definition datetime_max : Z := 3652059 * 86400 * 1000000 - 1.

(** [d + delta] on a datetime *)
Definition datetime_add (d delta : Z) : outcome Z :=
  let r := d + delta in
  if (0 <=? r) && (r <=? datetime_max) then Return r
  else Raise (Exn OverflowError (lit "date value out of range")).

(** The job as the scheduler keeps it: the run date of a date trigger is
    converted. *)
Definition stored_job (w : World) (job : Job) : Job :=
  {| func := func job;
     trigger := match trigger job with
                | DateTrigger d => DateTrigger (stored_run_date w d)
                | IntervalTrigger n => IntervalTrigger n
                end;
     job_args := job_args job |}.

(** [scheduler.add_job(func, trigger, id=id, replace_existing=..)] on a
    started scheduler: a missing [id] is generated; an id already in the
    store is a [ConflictingIdError] (a [KeyError]) unless the job
    replaces it. *)
Definition add_job (w : World) (store : gmap pystr Job) (job : Job)
    (id : option pystr) (replace_existing : bool)
    : outcome (pystr * gmap pystr Job) :=
  match store_fault w with
  | Some e => Raise e
  | None =>
    let job_id := default (new_job_id w) id in
    match store !! job_id with
    | Some _ =>
      if replace_existing
      then Return (job_id, <[job_id := stored_job w job]> store)
      else Raise (Exn ConflictingIdError
                    (repr_str w (lit "Job identifier (" ++ job_id
                                 ++ lit ") conflicts with an existing job")))
    | None => Return (job_id, <[job_id := stored_job w job]> store)
    end
  end.

(** [scheduler.remove_job(job_id)]: a [JobLookupError] (a [KeyError])
    when no job has the id. *)
Definition remove_job (w : World) (store : gmap pystr Job) (job_id : pystr)
    : outcome (gmap pystr Job) :=
  match store_fault w with
  | Some e => Raise e
  | None =>
    match store !! job_id with
    | Some _ => Return (delete job_id store)
    | None => Raise (Exn JobLookupError
                       (repr_str w (lit "No job by the id of " ++ job_id
                                    ++ lit " was found")))
    end
  end.

Definition truthy_opt (o : option pystr) : bool :=
  match o with Some s => truthy s | None => false end.

(** [__init__]: the three [os.getenv], the client when both the sid and
    the token are truthy, the scheduler, the heartbeat job. *)
Definition init (w : World) (sqlite_job_db : pystr) (environ : gmap pystr pystr)
    : outcome Tools :=
  let tw_sid := environ !! lit "TWILIO_ACCOUNT_SID" in
  let tw_token := environ !! lit "TWILIO_AUTH_TOKEN" in
  let from_whatsapp := environ !! lit "TWILIO_WHATSAPP_FROM" in
  let client :=
    if truthy_opt tw_sid && truthy_opt tw_token
    then Some {| account_sid := default [] tw_sid; auth_token := default [] tw_token |}
    else None in
  match scheduler_start w sqlite_job_db with
  | Raise e => Raise e
  | Return store =>
    match add_job w store
            {| func := heartbeat_runner_ref; trigger := IntervalTrigger 30;
               job_args := [] |}
            (Some (lit "heartbeat_job")) true with
    | Raise e => Raise e
    | Return (_, store') =>
      Return {| tw_sid := tw_sid; tw_token := tw_token;
                from_whatsapp := from_whatsapp; client := client;
                scheduler := store'; outbox := [] |}
    end
  end.

(** The default of [sqlite_job_db]. *)
Definition default_job_db : pystr := lit "sqlite:///jobs.sqlite".

(** The sender address as [send_whatsapp] passes it on. *)
Definition normalize_from (from_whatsapp : pystr) : pystr :=
  let from_wh := strip from_whatsapp in
  if startswith from_wh (lit "whatsapp:") then from_wh
  else lit "whatsapp:" ++ lstrip_char 43%N from_wh.

(** The recipient address as [send_whatsapp] passes it on (the
    statements on [to_wh]). *)
Definition normalize_to (to_number : pystr) : pystr :=
  let to_wh := strip to_number in
  if startswith to_wh (lit "whatsapp:") then to_wh
  else if startswith to_wh (lit "+") then lit "whatsapp:" ++ to_wh
  else lit "whatsapp:+" ++ to_wh.

Definition with_scheduler (self : Tools) (store : gmap pystr Job) : Tools :=
  {| tw_sid := tw_sid self; tw_token := tw_token self;
     from_whatsapp := from_whatsapp self; client := client self;
     scheduler := store; outbox := outbox self |}.

Definition with_outbox (self : Tools) (o : list Sent) : Tools :=
  {| tw_sid := tw_sid self; tw_token := tw_token self;
     from_whatsapp := from_whatsapp self; client := client self;
     scheduler := scheduler self; outbox := o |}.

Definition credentials_error : pystr :=
  lit "❌ Twilio credentials not configured (TWILIO_ACCOUNT_SID/TWILIO_AUTH_TOKEN/TWILIO_WHATSAPP_FROM).".

Definition send_whatsapp (w : World) (to_number message : pystr) (self : Tools)
    : outcome pystr * Tools :=
  match client self with
  | None => (Return credentials_error, self)
  | Some _ =>
    if negb (truthy_opt (from_whatsapp self)) then (Return credentials_error, self)
    else
      let from_wh := normalize_from (default [] (from_whatsapp self)) in
      let to_wh := normalize_to to_number in
      let call := {| sent_body := message; sent_from := from_wh; sent_to := to_wh |} in
      let self' := with_outbox self (outbox self ++ [call]) in
      match messages_create w call with
      | Return msg =>
        (Return (lit "📩 WhatsApp (Twilio) sent: sid=" ++ sid msg
                 ++ lit ", to=" ++ to msg), self')
      | Raise e => (Return (lit "❌ Twilio error: " ++ exn_str e), self')
      end
  end.

(** The module-level [run_scheduled]; [instance] is [TOOLS_INSTANCE]. *)
Definition run_scheduled (w : World) (to_number message : pystr)
    (instance : option Tools) : outcome pystr * option Tools :=
  match instance with
  | None => (Return (lit "❌ No Tools instance available to send message."), None)
  | Some self =>
    let '(r, self') := send_whatsapp w to_number message self in (r, Some self')
  end.

Definition invalid_delay : pystr :=
  lit "❌ Invalid delay_hours value. Must be a number.".

(** [datetime.utcnow() + timedelta(hours=float(delay_hours))] *)
Definition run_time_of (w : World) (delay_hours : pyval) : outcome Z :=
  match py_float w delay_hours with
  | Raise e => Raise e
  | Return f =>
    match timedelta_hours w f with
    | Raise e => Raise e
    | Return delta => datetime_add (utcnow w) delta
    end
  end.

Definition schedule_whatsapp (w : World) (to_number message : pystr)
    (delay_hours : pyval) (self : Tools) : outcome pystr * Tools :=
  match run_time_of w delay_hours with
  | Raise _ => (Return invalid_delay, self)
  | Return run_time =>
    match add_job w (scheduler self)
            {| func := run_scheduled_ref; trigger := DateTrigger run_time;
               job_args := [to_number; message] |}
            None false with
    | Raise e => (Raise e, self)
    | Return (job_id, store') =>
      (Return (lit "⏳ Scheduled WhatsApp message (job_id=" ++ job_id
               ++ lit ") for " ++ str_datetime w run_time ++ lit " UTC"),
       with_scheduler self store')
    end
  end.

Definition cancel_job (w : World) (job_id : pystr) (self : Tools)
    : outcome pystr * Tools :=
  match remove_job w (scheduler self) job_id with
  | Return store' =>
    (Return (lit "✅ Removed job " ++ job_id), with_scheduler self store')
  | Raise e =>
    (Return (lit "❌ Error removing job " ++ job_id ++ lit ": " ++ exn_str e), self)
  end.

End Dispatcher.

(* ===================================================================== *)
(** ** Concrete worlds and objects for the examples *)
(* ===================================================================== *)

Module Demo.
Import Py.

(** A dispatcher world: an empty durable store that works, the clock at
    2026-01-01 00:00:00, a [float] that reads only the string "2", run
    dates kept as they are, [repr] for strings without quotes or
    characters to escape, Twilio accepting the call. *)
Definition dworld : Dispatcher.World :=
  {| Dispatcher.scheduler_start := fun _ => Return ∅;
     Dispatcher.store_fault := None;
     Dispatcher.stored_run_date := fun d => d;
     Dispatcher.repr_str := repr_key;
     Dispatcher.new_job_id := lit "3f2a";
     Dispatcher.utcnow := 63902822400000000%Z;
     Dispatcher.float_of_str := fun s =>
       if eqb (strip s) (lit "2") then Return (lit "2.0")
       else Raise (Exn ValueError (lit "could not convert string to float"));
     Dispatcher.float_of_int := fun z => Return (lit "2.0");
     Dispatcher.timedelta_hours := fun _ => Return 7200000000%Z;
     Dispatcher.str_datetime := fun _ => lit "2026-01-01 02:00:00";
     Dispatcher.messages_create := fun c =>
       Return {| Dispatcher.sid := lit "SM1"; Dispatcher.status := lit "queued";
                 Dispatcher.to := Dispatcher.sent_to c |} |}.

Definition heartbeat : Dispatcher.Job :=
  {| Dispatcher.func := Dispatcher.heartbeat_runner_ref;
     Dispatcher.trigger := Dispatcher.IntervalTrigger 30;
     Dispatcher.job_args := [] |}.

(** The dispatcher as [__init__] leaves it when no credential is set. *)
Definition bare_tools : Dispatcher.Tools :=
  {| Dispatcher.tw_sid := None; Dispatcher.tw_token := None;
     Dispatcher.from_whatsapp := None; Dispatcher.client := None;
     Dispatcher.scheduler := {[ lit "heartbeat_job" := heartbeat ]};
     Dispatcher.outbox := [] |}.

(** Weather data as the endpoint sends it, from a list of the fields of
    the current condition. *)
Definition weather_data (fields : list (pystr * pyval)) : pyval :=
  PDict {[ lit "current_condition" := PList [PDict (list_to_map fields)] ]}.

Definition description (s : pystr) : pystr * pyval :=
  (lit "weatherDesc", PList [PDict {[ lit "value" := PStr s ]}]).

Definition weather_full : pyval :=
  weather_data [(lit "temp_C", PStr (lit "18")); description (lit "Clear");
                (lit "humidity", PStr (lit "40"));
                (lit "windspeedKmph", PStr (lit "10"));
                (lit "FeelsLikeC", PStr (lit "17"))].

Definition weather_no_temperature : pyval :=
  weather_data [description (lit "Clear");
                (lit "humidity", PStr (lit "40"));
                (lit "windspeedKmph", PStr (lit "10"));
                (lit "FeelsLikeC", PStr (lit "17"))].

Definition weather_no_description : pyval :=
  weather_data [(lit "temp_C", PStr (lit "18"));
                (lit "humidity", PStr (lit "40"));
                (lit "windspeedKmph", PStr (lit "10"));
                (lit "FeelsLikeC", PStr (lit "17"))].

(** A reply of the model that is one text part. *)
Definition text_reply (s : pystr) : Chat.Response :=
  {| Chat.candidates :=
       [{| Chat.parts := Some [{| Chat.function_call := None; Chat.text := Some s |}] |}];
     Chat.resp_text := Return s |}.

(** A reply of the model that is one get_weather call. *)
Definition tool_reply (args : pyval) : Chat.Response :=
  {| Chat.candidates :=
       [{| Chat.parts :=
             Some [{| Chat.function_call :=
                        Some {| Chat.name := lit "get_weather"; Chat.arguments := args |};
                      Chat.text := Some [] |}] |}];
     Chat.resp_text := Raise (Exn ValueError (lit "no text part")) |}.

(** A chat world: the first exchange ends as [first] says, the follow-up
    is answered with a sentence, the weather endpoint sends [data], and
    [json.loads] decodes only the text of the empty JSON array. *)
Definition cworld (first : outcome Chat.Response) (data : pyval) : Chat.World :=
  {| Chat.chat := unit;
     Chat.start_chat := fun _ => Return tt;
     Chat.send_message := fun _ _ _ declared =>
       match declared with
       | [] => Return (text_reply (lit "It is clear in Paris. "), tt)
       | _ => match first with
              | Return r => Return (r, tt)
              | Raise e => Raise e
              end
       end;
     Chat.json_loads := fun s =>
       if eqb s (lit "[]") then Return (PList [])
       else Raise (Exn ValueError (lit "Expecting value"));
     Chat.quote := fun s => Return s;
     Chat.requests_get := fun _ _ =>
       Return {| Chat.raise_for_status := Return tt; Chat.json := Return data |};
     Chat.str_other := fun _ => lit "?" |}.

(** A client just constructed. *)
Definition fresh : Chat.Client :=
  {| Chat.api_key := lit "key"; Chat.model := lit "gemini-2.5-flash";
     Chat.conversation_history := []; Chat.trace := [] |}.

Definition say (w : Chat.World) (s : pystr) : Chat.Call :=
  {| Chat.call_world := w; Chat.user_message := s; Chat.system_message := None;
     Chat.max_tokens := 200; Chat.call_temperature := PFloat (lit "0.7") |}.

(** The model answers directly. *)
Definition direct : Chat.World := cworld (Return (text_reply (lit " Hello! "))) weather_full.

(** The model API is down. *)
Definition down : Chat.World :=
  cworld (Raise (Exn OtherError (lit "503 Service Unavailable"))) weather_full.

(** The model asks for the weather with the payload [args]. *)
Definition asking (args : pyval) (data : pyval) : Chat.World :=
  cworld (Return (tool_reply args)) data.

End Demo.

(* ===================================================================== *)
(** ** Gemini_ai_call_mem_tool_v2.py: [start_conversation] *)
(* ===================================================================== *)

Module Console.
Import Py Chat.

(** The literal [system_message] of the loop. *)
Definition system_prompt : pystr :=
  lit "You are a helpful AI assistant with access to tools. 
        You can get weather information for cities using the get_weather tool.
        Keep responses concise and engaging. You can reference previous parts of our conversation.
        When asked about weather, use the get_weather tool to provide accurate information.".

(** The defaults of [max_tokens] and [temperature]. *)
Definition default_max_tokens : Z := 200.
Definition default_temperature : pyval := PFloat (lit "0.7").

(** What one [input()] of the loop gives: a line, typed while the outside
    is [w]; an exception of class [Exception] (end of input); or a
    [KeyboardInterrupt]. *)
Inductive Stdin :=
| Line (w : World) (s : pystr)
| Fails (e : exn)
| Interrupt.

(** How the loop stands after the inputs: left by a quit command, left
    by an interrupt, or reading the next input. *)
Inductive Ending := Left | Interrupted | Reading.

(** [user_input.lower() in ['quit', 'exit', 'bye']] *)
Definition is_quit (lowered : pystr) : bool :=
  eqb lowered (lit "quit") || eqb lowered (lit "exit") || eqb lowered (lit "bye").

(** The [while True] loop over the inputs it reads; [lower] is
    [str.lower].  The result is the responses of the calls made, in
    order, how the loop stands, and the object.  The waiting between the
    input and the call is left out. *)
Fixpoint start_conversation (lower : pystr -> pystr) (inputs : list Stdin)
    (st : Client) : list pystr * Ending * Client :=
  match inputs with
  | [] => ([], Reading, st)
  | Interrupt :: _ => ([], Interrupted, st)
  | Fails _ :: rest => start_conversation lower rest st
  | Line w s :: rest =>
    let user_input := strip s in
    if is_quit (lower user_input) then ([], Left, st)
    else if eqb (lower user_input) (lit "history") then
      start_conversation lower rest st
    else if eqb (lower user_input) (lit "clear") then
      start_conversation lower rest (snd (clear_conversation_history st))
    else if negb (truthy user_input) then
      start_conversation lower rest st
    else
      let '(o, st1) :=
        chat_completion_with_tools w user_input (Some system_prompt)
          default_max_tokens default_temperature st in
      match o with
      | Return response =>
        let '(rs, e, st2) := start_conversation lower rest st1 in
        (response :: rs, e, st2)
      | Raise _ => start_conversation lower rest st1
      end
  end.

(** [str.lower] on ASCII text. *)
Definition ascii_lower (s : pystr) : pystr :=
  map (fun c => if (65 <=? c) && (c <=? 90) then c + 32 else c) s.

End Console.

(* ===================================================================== *)
(** ** tools.py: the module-level runners as the scheduler calls them *)
(* ===================================================================== *)

Module Executor.
Import Py Dispatcher.

(** [job.func] applied to [job.args], as the scheduler's executor calls
    it when a job fires; [instance] is [TOOLS_INSTANCE].  [heartbeat_runner] only logs
    and returns [None]. *)
Definition run_job (w : World) (job : Job) (instance : option Tools)
    : outcome (option pystr) * option Tools :=
  match func job, job_args job with
  | run_scheduled_ref, [to_number; message] =>
    let '(r, instance') := run_scheduled w to_number message instance in
    (match r with Return s => Return (Some s) | Raise e => Raise e end, instance')
  | run_scheduled_ref, _ =>
    (Raise (Exn TypeError (lit "run_scheduled() takes 2 positional arguments")),
     instance)
  | heartbeat_runner_ref, [] => (Return None, instance)
  | heartbeat_runner_ref, _ =>
    (Raise (Exn TypeError (lit "heartbeat_runner() takes 0 positional arguments")),
     instance)
  end.

(** The credentials [send_whatsapp] asks for are there. *)
Definition configured (self : Tools) : bool :=
  match client self with
  | Some _ => truthy_opt (from_whatsapp self)
  | None => false
  end.

(** The job [schedule_whatsapp] registers. *)
Definition whatsapp_job (run_time : Z) (to_number message : pystr) : Job :=
  {| func := run_scheduled_ref; trigger := DateTrigger run_time;
     job_args := [to_number; message] |}.

(** The job [__init__] registers. *)
Definition heartbeat_job : Job :=
  {| func := heartbeat_runner_ref; trigger := IntervalTrigger 30;
     job_args := [] |}.

End Executor.

(* ===================================================================== *)
(** ** Further observations on the client *)
(* ===================================================================== *)

Module Obs.
Import Py Chat.

(** What [get_weather] fetches for a URL: the URL itself may be the
    exception of [quote]; then the request, the status check, the JSON
    body. *)
Definition weather_fetch (w : World) (clock : nat) (url : outcome pystr)
    : outcome pyval :=
  match url with
  | Raise e => Raise e
  | Return u =>
    match requests_get w clock u with
    | Raise e => Raise e
    | Return response =>
      match raise_for_status response with
      | Raise e => Raise e
      | Return _ => json response
      end
    end
  end.

(** The requests a lookup makes: one for a city that is a string and
    that [quote] accepts, none otherwise. *)
Definition weather_requests (w : World) (city : pyval) : list Event :=
  match city with
  | PStr c =>
    match weather_url w c with
    | Return url => [EvHttpGet url]
    | Raise _ => []
    end
  | _ => []
  end.

(** The roles [chat_completion_with_tools] stores. *)
Definition stored_role (m : Msg) : Prop :=
  role m = lit "user" \/ role m = lit "assistant" \/ role m = lit "tool".

(** The function calls of the parts, in order. *)
Definition function_calls (ps : list Part) : list FunctionCall :=
  omap function_call ps.

(** The text of the parts that carry no function call, in order. *)
Fixpoint plain_text (ps : list Part) : pystr :=
  match ps with
  | [] => []
  | p :: rest =>
    match function_call p, text p with
    | None, Some t => t ++ plain_text rest
    | _, _ => plain_text rest
    end
  end.

(** The result of a tool call that is not get_weather. *)
Definition not_implemented (tc : FunctionCall) : ToolResult :=
  {| tool_call_id := name tc;
     tr_content := lit "Tool '" ++ name tc ++ lit "' not implemented." |}.

(** How a tool result answers its tool call: it carries the call's name,
    and for a tool other than get_weather the fixed text. *)
Definition answers (tc : FunctionCall) (r : ToolResult) : Prop :=
  tool_call_id r = name tc
  /\ (name tc <> lit "get_weather" -> r = not_implemented tc).

(** The get_weather calls among the tool calls. *)
Definition weather_calls (tcs : list FunctionCall) : list FunctionCall :=
  filter (fun tc => name tc = lit "get_weather") tcs.

(** The state in which the tool calls of a turn run: the two model
    events added and the user message appended. *)
Definition tool_state (st : Client) (um : pystr) : Client :=
  with_history
    (with_trace st
       ((trace st
         ++ [EvStartChat (conversation_history st)
               (map format_msg (conversation_history st))])
        ++ [EvSendMessage (conversation_history st) um tools]))
    (conversation_history st ++ [user_msg um]).

End Obs.

Module Demo2.
Import Py.

(** A dispatcher with its credentials, and an empty store. *)
Definition ready_tools : Dispatcher.Tools :=
  {| Dispatcher.tw_sid := Some (lit "AC1"); Dispatcher.tw_token := Some (lit "tok");
     Dispatcher.from_whatsapp := Some (lit "+14150000000");
     Dispatcher.client :=
       Some {| Dispatcher.account_sid := lit "AC1"; Dispatcher.auth_token := lit "tok" |};
     Dispatcher.scheduler := {[ lit "heartbeat_job" := Demo.heartbeat ]};
     Dispatcher.outbox := [] |}.

(** The dispatcher world with a durable store that fails. *)
Definition broken_store : Dispatcher.World :=
  {| Dispatcher.scheduler_start := Dispatcher.scheduler_start Demo.dworld;
     Dispatcher.store_fault := Some (Exn OtherError (lit "database is locked"));
     Dispatcher.stored_run_date := Dispatcher.stored_run_date Demo.dworld;
     Dispatcher.repr_str := Dispatcher.repr_str Demo.dworld;
     Dispatcher.new_job_id := Dispatcher.new_job_id Demo.dworld;
     Dispatcher.utcnow := Dispatcher.utcnow Demo.dworld;
     Dispatcher.float_of_str := Dispatcher.float_of_str Demo.dworld;
     Dispatcher.float_of_int := Dispatcher.float_of_int Demo.dworld;
     Dispatcher.timedelta_hours := Dispatcher.timedelta_hours Demo.dworld;
     Dispatcher.str_datetime := Dispatcher.str_datetime Demo.dworld;
     Dispatcher.messages_create := Dispatcher.messages_create Demo.dworld |}.

(** A heartbeat job as an earlier version registered it. *)
Definition old_heartbeat : Dispatcher.Job :=
  {| Dispatcher.func := Dispatcher.heartbeat_runner_ref;
     Dispatcher.trigger := Dispatcher.IntervalTrigger 10;
     Dispatcher.job_args := [] |}.

(** The dispatcher world after a restart: the scheduler starts with the
    heartbeat job of the previous run. *)
Definition restarted : Dispatcher.World :=
  {| Dispatcher.scheduler_start :=
       fun _ => Return {[ lit "heartbeat_job" := old_heartbeat ]};
     Dispatcher.store_fault := None;
     Dispatcher.stored_run_date := Dispatcher.stored_run_date Demo.dworld;
     Dispatcher.repr_str := Dispatcher.repr_str Demo.dworld;
     Dispatcher.new_job_id := Dispatcher.new_job_id Demo.dworld;
     Dispatcher.utcnow := Dispatcher.utcnow Demo.dworld;
     Dispatcher.float_of_str := Dispatcher.float_of_str Demo.dworld;
     Dispatcher.float_of_int := Dispatcher.float_of_int Demo.dworld;
     Dispatcher.timedelta_hours := Dispatcher.timedelta_hours Demo.dworld;
     Dispatcher.str_datetime := Dispatcher.str_datetime Demo.dworld;
     Dispatcher.messages_create := Dispatcher.messages_create Demo.dworld |}.

(** The dispatcher world at the last microsecond of [datetime]. *)
Definition last_moment : Dispatcher.World :=
  {| Dispatcher.scheduler_start := Dispatcher.scheduler_start Demo.dworld;
     Dispatcher.store_fault := None;
     Dispatcher.stored_run_date := Dispatcher.stored_run_date Demo.dworld;
     Dispatcher.repr_str := Dispatcher.repr_str Demo.dworld;
     Dispatcher.new_job_id := Dispatcher.new_job_id Demo.dworld;
     Dispatcher.utcnow := Dispatcher.datetime_max;
     Dispatcher.float_of_str := Dispatcher.float_of_str Demo.dworld;
     Dispatcher.float_of_int := Dispatcher.float_of_int Demo.dworld;
     Dispatcher.timedelta_hours := Dispatcher.timedelta_hours Demo.dworld;
     Dispatcher.str_datetime := Dispatcher.str_datetime Demo.dworld;
     Dispatcher.messages_create := Dispatcher.messages_create Demo.dworld |}.

(** A chat world in which [quote] rejects the city, as it does a string
    with a lone surrogate. *)
Definition unquotable : Chat.World :=
  {| Chat.chat := Chat.chat Demo.direct;
     Chat.start_chat := Chat.start_chat Demo.direct;
     Chat.send_message := Chat.send_message Demo.direct;
     Chat.json_loads := Chat.json_loads Demo.direct;
     Chat.quote := fun _ =>
       Raise (Exn ValueError (lit "'utf-8' codec can't encode character: surrogates not allowed"));
     Chat.requests_get := Chat.requests_get Demo.direct;
     Chat.str_other := Chat.str_other Demo.direct |}.

(** A chat world whose weather endpoint is unreachable. *)
Definition offline (args : pyval) : Chat.World :=
  {| Chat.chat := Chat.chat (Demo.asking args Demo.weather_full);
     Chat.start_chat := Chat.start_chat (Demo.asking args Demo.weather_full);
     Chat.send_message := Chat.send_message (Demo.asking args Demo.weather_full);
     Chat.json_loads := Chat.json_loads (Demo.asking args Demo.weather_full);
     Chat.quote := Chat.quote (Demo.asking args Demo.weather_full);
     Chat.requests_get := fun _ _ => Raise (Exn OtherError (lit "connection timed out"));
     Chat.str_other := Chat.str_other (Demo.asking args Demo.weather_full) |}.

End Demo2.

Module ConsoleObs.
Import Py Chat Console.

(** An input that neither reaches the model nor changes the object: a
    failed read, the history command, or a blank line. *)
Definition inert (lower : pystr -> pystr) (i : Stdin) : Prop :=
  match i with
  | Fails _ => True
  | Interrupt => False
  | Line _ s =>
    is_quit (lower (strip s)) = false
    /\ (lower (strip s) = lit "history"
        \/ (lower (strip s) <> lit "clear" /\ strip s = []))
  end.

(** A run of the loop followed by another, which starts if the first is
    still reading. *)
Definition then_run (first : list pystr * Ending * Client)
    (next : Client -> list pystr * Ending * Client)
    : list pystr * Ending * Client :=
  let '(rs, e, st1) := first in
  match e with
  | Reading => let '(rs', e', st2) := next st1 in (rs ++ rs', e', st2)
  | _ => (rs, e, st1)
  end.

(** A call with its system message replaced. *)
Definition with_system (sm : option pystr) (c : Call) : Call :=
  {| call_world := call_world c; user_message := user_message c;
     system_message := sm; max_tokens := max_tokens c;
     call_temperature := call_temperature c |}.

(** A blank line, the history command in capitals, and the end of the
    input. *)
Definition idle_inputs : list Stdin :=
  [Line Demo.direct (lit "   "); Line Demo.direct (lit " HISTORY ");
   Fails (Exn OtherError (lit "EOF when reading a line"))].

End ConsoleObs.

(* ===================================================================== *)
(** ** Facts about strings *)
(* ===================================================================== *)

Section StringFacts.

Local Open Scope N_scope.

Example lit_ascii : lit "N/A" = [78; 47; 65].
Proof. reflexivity. Qed.

Example lit_cross_mark : lit "❌" = [10060].
Proof. reflexivity. Qed.

Example lit_sun_cloud : lit "🌤️" = [127780; 65039].
Proof. reflexivity. Qed.

Example strip_example : strip (lit "  +91 98 ") = lit "+91 98".
Proof. reflexivity. Qed.

Example strip_nbsp : strip [160; 43; 49; 8239] = [43; 49].
Proof. reflexivity. Qed.

Lemma lstrip_lstrip (s : pystr) : lstrip (lstrip s) = lstrip s.
Proof.
  induction s as [|c r IH]; simpl; [done|].
  destruct (isspace c) eqn:Hc; [done|]. simpl. by rewrite Hc.
Qed.

Lemma lstrip_snoc (l : pystr) (c : N) :
  isspace c = false -> lstrip (l ++ [c]) = lstrip l ++ [c].
Proof.
  intros Hc. induction l as [|a l IH]; simpl.
  - by rewrite Hc.
  - by destruct (isspace a).
Qed.

Lemma rstrip_cons (c : N) (r : pystr) :
  isspace c = false -> rstrip (c :: r) = c :: rstrip r.
Proof.
  intros Hc. unfold rstrip. simpl.
  by rewrite lstrip_snoc, rev_app_distr.
Qed.

Lemma rstrip_app (p t : pystr) :
  forallb (fun c => negb (isspace c)) p = true ->
  rstrip (p ++ t) = p ++ rstrip t.
Proof.
  induction p as [|c p IH]; simpl; [done|].
  intros [Hc Hp]%andb_prop. rewrite rstrip_cons.
  - by rewrite IH.
  - by destruct (isspace c).
Qed.

Lemma rstrip_rstrip (s : pystr) : rstrip (rstrip s) = rstrip s.
Proof. unfold rstrip. by rewrite rev_involutive, lstrip_lstrip. Qed.

(** Stripping the right end keeps a left end that is already clean. *)
Lemma lstrip_rstrip (u : pystr) : lstrip u = u -> lstrip (rstrip u) = rstrip u.
Proof.
  destruct u as [|c r]; [done|]. simpl.
  destruct (isspace c) eqn:Hc.
  - intros H. exfalso.
    assert (Hlen : forall s : pystr, (length (lstrip s) <= length s)%nat).
    { clear. induction s as [|a s IH]; simpl; [lia|].
      destruct (isspace a); simpl; lia. }
    specialize (Hlen r). rewrite H in Hlen. simpl in Hlen. lia.
  - intros _. rewrite rstrip_cons by done. simpl. by rewrite Hc.
Qed.

Lemma lstrip_strip (s : pystr) : lstrip (strip s) = strip s.
Proof. unfold strip. apply lstrip_rstrip, lstrip_lstrip. Qed.

Lemma rstrip_strip (s : pystr) : rstrip (strip s) = strip s.
Proof. unfold strip. apply rstrip_rstrip. Qed.

Lemma strip_strip (s : pystr) : strip (strip s) = strip s.
Proof. unfold strip at 1. by rewrite lstrip_strip, rstrip_strip. Qed.

Lemma startswith_app (p t : pystr) : startswith (p ++ t) p = true.
Proof.
  induction p as [|c p IH]; simpl; [done|].
  by rewrite N.eqb_refl, IH.
Qed.

(** A prefix without white space in front of a stripped string gives a
    stripped string. *)
Lemma strip_prefixed (p s : pystr) :
  negb (bool_decide (p = [])) && forallb (fun c => negb (isspace c)) p = true ->
  strip (p ++ strip s) = p ++ strip s.
Proof.
  intros [Hne%negb_true_iff%bool_decide_eq_false Hp]%andb_prop.
  unfold strip at 1.
  assert (Hl : lstrip (p ++ strip s) = p ++ strip s).
  { destruct p as [|c p]; [done|]. simpl in *.
    apply andb_prop in Hp as [Hc _]. by destruct (isspace c). }
  by rewrite Hl, rstrip_app, rstrip_strip.
Qed.

End StringFacts.

(* ===================================================================== *)
(** ** The dispatcher *)
(* ===================================================================== *)

Section DispatcherFacts.

Import Py Dispatcher.

(** C8. The recipient-address normalization of [send_whatsapp] is
    idempotent: normalizing a normalized address gives it back, for
    every address string. *)
Theorem normalize_to_idempotent (to_number : pystr) :
  normalize_to (normalize_to to_number) = normalize_to to_number.
Proof.
  unfold normalize_to.
  destruct (startswith (strip to_number) (lit "whatsapp:")) eqn:Hw.
  - by rewrite strip_strip, Hw.
  - destruct (startswith (strip to_number) (lit "+")) eqn:Hp.
    + rewrite strip_prefixed by reflexivity. by rewrite startswith_app.
    + rewrite strip_prefixed by reflexivity.
      change (lit "whatsapp:+") with (lit "whatsapp:" ++ lit "+").
      by rewrite <- app_assoc, startswith_app.
Qed.

(** C7. Cancelling a job id that is not in the job store returns an
    error-marked string, raises nothing, and leaves the dispatcher as it
    was.  The string carries the text of the exception of [remove_job]:
    for the [JobLookupError], a [KeyError], the [repr] of its message. *)
Theorem cancel_job_missing (w : World) (job_id : pystr) (self : Tools) :
  scheduler self !! job_id = None ->
  exists msg,
    cancel_job w job_id self = (Return msg, self)
    /\ startswith msg (lit "❌") = true
    /\ msg = lit "❌ Error removing job " ++ job_id ++ lit ": "
             ++ exn_str (default
                           (Exn JobLookupError
                              (repr_str w (lit "No job by the id of " ++ job_id
                                           ++ lit " was found")))
                           (store_fault w)).
Proof.
  intros Hmiss. unfold cancel_job, remove_job. rewrite Hmiss.
  destruct (store_fault w) as [e|]; eexists; (split; [reflexivity|]);
    split; reflexivity.
Qed.

Lemma cancel_job_missing_witness :
  scheduler Demo.bare_tools !! lit "no-such-job" = None
  /\ exists msg,
       cancel_job Demo.dworld (lit "no-such-job") Demo.bare_tools
         = (Return msg, Demo.bare_tools)
       /\ startswith msg (lit "❌") = true
       /\ msg = lit "❌ Error removing job " ++ lit "no-such-job" ++ lit ": "
                ++ exn_str (default
                              (Exn JobLookupError
                                 (repr_str Demo.dworld
                                    (lit "No job by the id of " ++ lit "no-such-job"
                                     ++ lit " was found")))
                              (store_fault Demo.dworld)).
Proof.
  split; [vm_compute; reflexivity|].
  apply (cancel_job_missing Demo.dworld (lit "no-such-job") Demo.bare_tools).
  vm_compute; reflexivity.
Defined.

Example cancel_job_missing_text :
  cancel_job Demo.dworld (lit "no-such-job") Demo.bare_tools
  = (Return (lit "❌ Error removing job no-such-job: 'No job by the id of no-such-job was found'"),
     Demo.bare_tools).
Proof. vm_compute. reflexivity. Qed.

(** C6. When [float(delay_hours)] raises, [schedule_whatsapp] returns the
    validation error string and the dispatcher, its job store included,
    is unchanged: no job is registered. *)
Theorem schedule_whatsapp_invalid_delay (w : World) (to_number message : pystr)
    (delay_hours : pyval) (self : Tools) (e : exn) :
  py_float w delay_hours = Raise e ->
  schedule_whatsapp w to_number message delay_hours self
    = (Return invalid_delay, self)
  /\ scheduler (snd (schedule_whatsapp w to_number message delay_hours self))
     = scheduler self
  /\ startswith invalid_delay (lit "❌") = true.
Proof.
  intros Hf. unfold schedule_whatsapp, run_time_of. rewrite Hf. by simpl.
Qed.

Lemma schedule_whatsapp_invalid_delay_witness :
  py_float Demo.dworld (PStr (lit "soon"))
    = Raise (Exn ValueError (lit "could not convert string to float"))
  /\ schedule_whatsapp Demo.dworld (lit "+919800000000") (lit "hello")
       (PStr (lit "soon")) Demo.bare_tools
     = (Return invalid_delay, Demo.bare_tools).
Proof.
  split; [vm_compute; reflexivity|].
  apply (schedule_whatsapp_invalid_delay Demo.dworld (lit "+919800000000")
           (lit "hello") (PStr (lit "soon")) Demo.bare_tools
           (Exn ValueError (lit "could not convert string to float"))).
  vm_compute; reflexivity.
Defined.

(** A value without a float conversion at all: [None]. *)
Example schedule_whatsapp_none (w : World) (self : Tools) :
  schedule_whatsapp w (lit "+1") (lit "m") PNone self = (Return invalid_delay, self).
Proof. reflexivity. Qed.

(** A delay that converts registers one job under the new id. *)
Example schedule_whatsapp_two_hours :
  scheduler (snd (schedule_whatsapp Demo.dworld (lit "+1") (lit "m")
                    (PStr (lit "2")) Demo.bare_tools)) !! lit "3f2a"
  = Some {| func := run_scheduled_ref;
            trigger := DateTrigger 63902829600000000;
            job_args := [lit "+1"; lit "m"] |}.
Proof. vm_compute. reflexivity. Qed.

End DispatcherFacts.

(* ===================================================================== *)
(** ** The conversational client *)
(* ===================================================================== *)

Section ChatFacts.

Import Py Chat.
Local Open Scope py_scope.

(** *** The state monad *)

Lemma with_trace_with_trace (st : Client) (t1 t2 : list Event) :
  with_trace (with_trace st t1) t2 = with_trace st t2.
Proof. reflexivity. Qed.

Lemma with_trace_same (st : Client) : with_trace st (trace st) = st.
Proof. by destruct st. Qed.

Lemma history_with_trace (st : Client) (t : list Event) :
  conversation_history (with_trace st t) = conversation_history st.
Proof. reflexivity. Qed.

Lemma new_events_app (st : Client) (evs : list Event) :
  new_events st (with_trace st (trace st ++ evs)) = evs.
Proof. unfold new_events. simpl. by rewrite drop_app_length. Qed.

Lemma Return_inj {A} (a b : A) : Return a = Return b -> a = b.
Proof. congruence. Qed.

Lemma bind_lift {A B} (o : outcome A) (k : A -> M B) (st : Client) :
  bind (lift o) k st
  = match o with Return a => k a st | Raise e => (Raise e, st) end.
Proof. unfold bind, lift. by destruct o. Qed.

(** A [try]/[except] whose handler returns never raises. *)
Lemma try_except_returns {A} (body : M A) (f : exn -> A) (st : Client) :
  try_except body (fun e => ret (f e)) st
  = (Return (match fst (body st) with Return a => a | Raise e => f e end),
     snd (body st)).
Proof. unfold try_except, ret. by destruct (body st) as [[a|e] st']. Qed.

(** *** Computations that leave the history alone *)

Section AddsOnly.

Context (P : Event -> Prop).

Lemma adds_ret {A} (a : A) : adds_only P (ret a).
Proof.
  intros st. exists []. split; [constructor|].
  simpl. by rewrite app_nil_r, with_trace_same.
Qed.

Lemma adds_lift {A} (o : outcome A) : adds_only P (lift o).
Proof.
  intros st. exists []. split; [constructor|].
  simpl. by rewrite app_nil_r, with_trace_same.
Qed.

Lemma adds_emit (ev : Event) : P ev -> adds_only P (emit ev).
Proof. intros Hev st. exists [ev]. split; [by repeat constructor|done]. Qed.

Lemma adds_requests_get (w : World) (url : pystr) :
  P (EvHttpGet url) -> adds_only P (call_requests_get w url).
Proof. intros Hev st. exists [EvHttpGet url]. split; [by repeat constructor|done]. Qed.

Lemma adds_bind {A B} (m : M A) (k : A -> M B) :
  adds_only P m -> (forall a, adds_only P (k a)) -> adds_only P (bind m k).
Proof.
  intros Hm Hk st. unfold bind.
  destruct (Hm st) as (e1 & He1 & Hst1).
  destruct (m st) as [[a|e] st1]; simpl in *; subst st1.
  - destruct (Hk a (with_trace st (trace st ++ e1))) as (e2 & He2 & Hst2).
    exists (e1 ++ e2). split; [by apply Forall_app|].
    rewrite Hst2. simpl. by rewrite app_assoc.
  - by exists e1.
Qed.

Lemma adds_try {A} (m : M A) (h : exn -> M A) :
  adds_only P m -> (forall e, adds_only P (h e)) -> adds_only P (try_except m h).
Proof.
  intros Hm Hh st. unfold try_except.
  destruct (Hm st) as (e1 & He1 & Hst1).
  destruct (m st) as [[a|e] st1]; simpl in *; subst st1.
  - by exists e1.
  - destruct (Hh e (with_trace st (trace st ++ e1))) as (e2 & He2 & Hst2).
    exists (e1 ++ e2). split; [by apply Forall_app|].
    rewrite Hst2. simpl. by rewrite app_assoc.
Qed.

End AddsOnly.

Ltac adds_steps :=
  repeat first
    [ apply adds_bind; [|intros ?]
    | apply adds_try; [|intros ?]
    | apply adds_emit; exact I
    | apply adds_requests_get; exact I
    | apply adds_ret
    | apply adds_lift ].

Lemma local_get_weather (w : World) (city : pyval) :
  adds_only local_event (get_weather w city).
Proof. unfold get_weather. adds_steps. Qed.

Lemma local_tool_call_result (w : World) (tc : FunctionCall) :
  adds_only local_event (tool_call_result w tc).
Proof.
  unfold tool_call_result. destruct (eqb _ _).
  - adds_steps.
  - apply adds_ret.
Qed.

Lemma local_run_tool_calls (w : World) (tcs : list FunctionCall)
    (acc : list ToolResult) :
  adds_only local_event (run_tool_calls w tcs acc).
Proof.
  revert acc. induction tcs as [|tc tcs IH]; intros acc; simpl.
  - apply adds_ret.
  - apply adds_bind; [apply local_tool_call_result|]. intros r. apply IH.
Qed.

(** A lookup is one [EvGetWeather] event, followed by HTTP requests
    only. *)
Lemma get_weather_events (w : World) (city : pyval) (st : Client) :
  exists evs,
    Forall http_event evs
    /\ snd (get_weather w city st)
       = with_trace st (trace st ++ EvGetWeather city :: evs).
Proof.
  unfold get_weather, bind at 1, emit.
  match goal with
  | |- context [try_except ?b ?h ?s] =>
    assert (H : adds_only http_event (try_except b h)) by adds_steps;
    destruct (H s) as (evs & Hevs & Hs)
  end.
  exists evs. split; [done|]. rewrite Hs. simpl. by rewrite <- app_assoc.
Qed.

Lemma weather_lookups_http (evs : list Event) :
  Forall http_event evs -> weather_lookups evs = [].
Proof.
  induction 1 as [|ev evs Hev _ IH]; [done|].
  by destruct ev.
Qed.

(** One call of [get_weather] is one lookup, of the city it was given. *)
Lemma get_weather_one_lookup (w : World) (city : pyval) (st : Client) :
  weather_lookups (new_events st (snd (get_weather w city st))) = [city].
Proof.
  destruct (get_weather_events w city st) as (evs & Hevs & ->).
  rewrite new_events_app. simpl. by rewrite weather_lookups_http.
Qed.

(** [get_weather] returns a string whatever happens. *)
Lemma get_weather_returns (w : World) (city : pyval) (st : Client) :
  exists s, fst (get_weather w city st) = Return s.
Proof.
  unfold get_weather, bind at 1, emit.
  rewrite try_except_returns. simpl. eauto.
Qed.

(** *** The shape of a turn *)

Ltac events_added :=
  unfold new_events; simpl; rewrite <- ?app_assoc; rewrite drop_app_length; simpl.

(** The body of the [try] runs through one of the shapes of [turn]. *)
Lemma body_turn (w : World) (um : pystr) (mt : Z) (temp : pyval) (st : Client) :
  turn (conversation_history st) um
       (new_events st (snd (chat_completion_body w um mt temp st)))
       (conversation_history (snd (chat_completion_body w um mt temp st)))
       (fst (chat_completion_body w um mt temp st)).
Proof.
  unfold chat_completion_body, bind, read_history, call_start_chat,
    call_send_message, lift.
  destruct (start_chat w _) as [c|e]; [|events_added; constructor].
  destruct (send_message w c um _ tools) as [[resp c']|e];
    [|events_added; constructor].
  destruct (first_candidate resp) as [cont|e]; [|events_added; constructor].
  destruct (scan_parts _ [] []) as [rt tcs].
  destruct tcs as [|tc tcs].
  - events_added. constructor.
  - cbn -[run_tool_calls new_events].
    match goal with
    | |- context [run_tool_calls w ?l [] ?s] =>
      destruct (local_run_tool_calls w l [] s) as (evs & Hevs & Hst);
      destruct (run_tool_calls w l [] s) as [[trs|e] st4]
    end; simpl in Hst; subst st4.
    + destruct (send_message w c' _ _ []) as [[fin c'']|e]; simpl.
      * destruct (resp_text fin) as [ft|e]; simpl.
        -- events_added.
           by apply turn_tool_done.
        -- events_added.
           by apply turn_followup_error.
      * events_added.
        by apply turn_followup_error.
    + events_added. by apply (turn_tool_error _ _ _ evs).
Qed.



Lemma turn_appended h um evs h' o :
  turn h um evs h' o -> exists seg, h' = h ++ seg /\ appended um o seg.
Proof.
  intros Ht. inversion Ht; subst; simpl; eexists; split;
    try reflexivity; try (by rewrite app_nil_r); simpl; eauto 10.
Qed.

(** *** What a call returns *)

Lemma chat_completion_unfold w um sm mt temp st :
  chat_completion_with_tools w um sm mt temp st
  = (Return (match fst (chat_completion_body w um mt temp st) with
             | Return r => r
             | Raise e => api_error e
             end),
     snd (chat_completion_body w um mt temp st)).
Proof. unfold chat_completion_with_tools. apply try_except_returns. Qed.

(** When the first remote exchange raises, so does the body of the [try],
    with the history as it was. *)
Lemma body_model_error w um mt temp st e :
  model_reply w (conversation_history st) um mt temp = Raise e ->
  fst (chat_completion_body w um mt temp st) = Raise e
  /\ conversation_history (snd (chat_completion_body w um mt temp st))
     = conversation_history st.
Proof.
  unfold model_reply, chat_completion_body, bind, read_history,
    call_start_chat, call_send_message. simpl.
  destruct (start_chat w _) as [c|e0]; simpl.
  - intros ->. done.
  - by intros [= ->].
Qed.

Lemma api_error_marked (e : exn) :
  startswith (api_error e) (lit "Error making Gemini API call: ") = true.
Proof. apply startswith_app. Qed.

(** C5. [chat_completion_with_tools] returns a string on every input and
    in every world, and never raises: the string is the reply when the
    body of the [try] returns, and the error text, which starts with
    "Error making Gemini API call: ", when anything in it raises, the
    remote model call in particular. *)
Theorem chat_completion_never_raises (w : World) (um : pystr)
    (sm : option pystr) (mt : Z) (temp : pyval) (st : Client) :
  exists s,
    fst (chat_completion_with_tools w um sm mt temp st) = Return s
    /\ match fst (chat_completion_body w um mt temp st) with
       | Return r => s = r
       | Raise e =>
         s = api_error e
         /\ startswith s (lit "Error making Gemini API call: ") = true
       end
    /\ match model_reply w (conversation_history st) um mt temp with
       | Return _ => True
       | Raise e =>
         s = lit "Error making Gemini API call: " ++ exn_str e
       end.
Proof.
  rewrite chat_completion_unfold. simpl. eexists. split; [reflexivity|]. split.
  - destruct (fst (chat_completion_body w um mt temp st)) as [r|e]; [done|].
    split; [done|exact (api_error_marked e)].
  - destruct (model_reply w _ um mt temp) as [?|e] eqn:Hm; [done|].
    by destruct (body_model_error w um mt temp st e Hm) as [-> _].
Qed.

(** C10. If the first remote model call raises, the function returns the
    error string and the conversation history is exactly as it was. *)
Theorem model_error_keeps_history (w : World) (um : pystr)
    (sm : option pystr) (mt : Z) (temp : pyval) (st : Client) (e : exn) :
  model_reply w (conversation_history st) um mt temp = Raise e ->
  fst (chat_completion_with_tools w um sm mt temp st)
    = Return (lit "Error making Gemini API call: " ++ exn_str e)
  /\ conversation_history (snd (chat_completion_with_tools w um sm mt temp st))
     = conversation_history st.
Proof.
  intros Hm. rewrite chat_completion_unfold. simpl.
  by destruct (body_model_error w um mt temp st e Hm) as [-> ->].
Qed.

Lemma model_error_keeps_history_witness :
  model_reply Demo.down (conversation_history Demo.fresh) (lit "hi") 200
      (PFloat (lit "0.7"))
    = Raise (Exn OtherError (lit "503 Service Unavailable"))
  /\ fst (chat_completion_with_tools Demo.down (lit "hi") None 200
            (PFloat (lit "0.7")) Demo.fresh)
     = Return (lit "Error making Gemini API call: "
               ++ exn_str (Exn OtherError (lit "503 Service Unavailable")))
  /\ conversation_history
       (snd (chat_completion_with_tools Demo.down (lit "hi") None 200
               (PFloat (lit "0.7")) Demo.fresh))
     = conversation_history Demo.fresh.
Proof.
  split; [vm_compute; reflexivity|].
  apply (model_error_keeps_history Demo.down (lit "hi") None 200
           (PFloat (lit "0.7")) Demo.fresh
           (Exn OtherError (lit "503 Service Unavailable"))).
  vm_compute; reflexivity.
Defined.

(** *** When the history is updated *)




(** *** Sequences of calls *)


(** What one call appends, by the way the body of its [try] ends. *)
Lemma call_appends (c : Call) (st : Client) :
  exists seg,
    conversation_history (snd (run_call c st)) = conversation_history st ++ seg
    /\ appended (user_message c) (fst (run_body c st)) seg.
Proof.
  unfold run_call, run_body. rewrite chat_completion_unfold. simpl.
  exact (turn_appended _ _ _ _ _ (body_turn _ _ _ _ st)).
Qed.





Example two_completed_calls :
  let calls := [Demo.say Demo.direct (lit "hi");
                Demo.say (Demo.asking PNone Demo.weather_full) (lit "weather?")] in
  map role (conversation_history (snd (run_calls calls Demo.fresh)))
  = [lit "user"; lit "assistant";
     lit "user"; lit "assistant"; lit "tool"; lit "assistant"]
  /\ fst (run_calls calls Demo.fresh) = [lit "Hello!"; lit "It is clear in Paris."].
Proof. vm_compute. split; reflexivity. Qed.

(** *** The weather lookup *)

(** The formatted string of the spec's example. *)
Example get_weather_full :
  fst (get_weather Demo.direct (PStr (lit "Paris")) Demo.fresh)
  = Return (lit "🌤️ Weather in Paris: 18°C, Clear, Humidity: 40%, Wind: 10 km/h, Feels like: 17°C").
Proof. vm_compute. reflexivity. Qed.

(** An absent temperature is rendered as "N/A". *)
Example get_weather_no_temperature :
  fst (get_weather (Demo.cworld (Raise (Exn OtherError [])) Demo.weather_no_temperature)
         (PStr (lit "Paris")) Demo.fresh)
  = Return (lit "🌤️ Weather in Paris: N/A°C, Clear, Humidity: 40%, Wind: 10 km/h, Feels like: 17°C").
Proof. vm_compute. reflexivity. Qed.

(** Whatever the other fields are, a current condition without
    "weatherDesc" makes the lookup return the error string. *)
Lemma get_weather_description_absent (w : World) (city url : pystr)
    (st : Client) (resp : HttpResponse) (d cur : gmap pystr pyval)
    (rest : list pyval) :
  weather_url w city = Return url ->
  requests_get w (S (length (trace st))) url = Return resp ->
  raise_for_status resp = Return tt ->
  json resp = Return (PDict d) ->
  d !! lit "current_condition" = Some (PList (PDict cur :: rest)) ->
  cur !! lit "weatherDesc" = None ->
  fst (get_weather w (PStr city) st)
  = Return (lit "Error fetching weather for " ++ city ++ lit ": 'weatherDesc'").
Proof.
  intros Hurl Hget Hstatus Hjson Hcc Hdesc.
  unfold get_weather, bind at 1, emit. rewrite try_except_returns.
  unfold weather_url in Hurl.
  unfold bind, lift, call_requests_get. cbn.
  destruct (quote w (strip city)) as [city_enc|e]; [|done].
  apply Return_inj in Hurl. subst url. cbn.
  rewrite length_app, Nat.add_1_r.
  rewrite Hget, Hstatus, Hjson. cbn. rewrite Hcc. cbn. rewrite Hdesc.
  reflexivity.
Qed.

(** C3 fails on the code for the textual description: with every other
    field present and "weatherDesc" absent, [get_weather] returns the
    error string, not the formatted string with "N/A". *)
Theorem get_weather_without_description :
  fst (get_weather (Demo.cworld (Raise (Exn OtherError [])) Demo.weather_no_description)
         (PStr (lit "Paris")) Demo.fresh)
  = Return (lit "Error fetching weather for Paris: 'weatherDesc'").
Proof. vm_compute. reflexivity. Qed.

(** *** Tool calls *)

(** A get_weather call whose payload gives a city is one lookup of that
    city, and its result is the lookup's. *)
Lemma tool_call_lookup (w : World) (tc : FunctionCall) (city : pyval)
    (st : Client) :
  name tc = lit "get_weather" ->
  get (normalize_args w (arguments tc)) (lit "city") (PStr (lit "Unknown"))
    = Return city ->
  (exists r,
      fst (get_weather w city st) = Return r
      /\ fst (tool_call_result w tc st)
         = Return {| tool_call_id := name tc; tr_content := r |})
  /\ weather_lookups (new_events st (snd (tool_call_result w tc st))) = [city].
Proof.
  intros Hname Hcity. unfold tool_call_result. rewrite Hname.
  change (eqb (lit "get_weather") (lit "get_weather")) with true. cbv iota.
  cbv zeta. rewrite bind_lift, Hcity. unfold bind, ret.
  pose proof (get_weather_one_lookup w city st) as Hone.
  destruct (get_weather_returns w city st) as [r Hr].
  destruct (get_weather w city st) as [o st'].
  simpl in *. subst o. split; [by exists r|done].
Qed.

(** A payload that is a string and not JSON is the city. *)
Lemma city_of_undecodable_string (w : World) (s : pystr) (e : exn) :
  json_loads w s = Raise e ->
  get (normalize_args w (PStr s)) (lit "city") (PStr (lit "Unknown"))
  = Return (PStr s).
Proof.
  intros He. unfold normalize_args. rewrite He. simpl.
  by rewrite lookup_singleton_eq.
Qed.

(** An absent payload gives the city "Unknown". *)
Lemma city_of_none (w : World) :
  get (normalize_args w PNone) (lit "city") (PStr (lit "Unknown"))
  = Return (PStr (lit "Unknown")).
Proof. reflexivity. Qed.

(** A mapping gives its "city" entry, or "Unknown". *)
Lemma city_of_mapping (w : World) (d : gmap pystr pyval) :
  get (normalize_args w (PDict d)) (lit "city") (PStr (lit "Unknown"))
  = Return (default (PStr (lit "Unknown")) (d !! lit "city")).
Proof. reflexivity. Qed.

(** A string payload that decodes to something that is not a mapping
    makes the tool call raise, before any lookup. *)
Lemma tool_call_not_a_mapping (w : World) (tc : FunctionCall) (s : pystr)
    (v : pyval) (st : Client) :
  name tc = lit "get_weather" ->
  arguments tc = PStr s ->
  json_loads w s = Return v ->
  (forall d, v <> PDict d) ->
  tool_call_result w tc st = (Raise (no_attribute v (lit "get")), st).
Proof.
  intros Hname Hargs Hload Hv. unfold tool_call_result. rewrite Hname.
  change (eqb (lit "get_weather") (lit "get_weather")) with true. cbv iota.
  cbv zeta. rewrite bind_lift. unfold normalize_args. rewrite Hargs, Hload.
  destruct v; try reflexivity. by destruct (Hv d).
Qed.

(** C9 fails on the code for a payload that is a string of valid JSON
    but not of an object: when the model asks for the weather with the
    payload "[]", the turn ends with the error string, the lookup is not
    invoked, and only the user message has been appended. *)
Theorem tool_call_json_array_payload :
  let c := Demo.say (Demo.asking (PStr (lit "[]")) Demo.weather_full)
                    (lit "weather?") in
  fst (run_call c Demo.fresh)
    = Return (lit "Error making Gemini API call: 'list' object has no attribute 'get'")
  /\ weather_lookups (new_events Demo.fresh (snd (run_call c Demo.fresh))) = []
  /\ conversation_history (snd (run_call c Demo.fresh))
     = [user_msg (lit "weather?")].
Proof. vm_compute. repeat split. Qed.

(** The two payloads the claim names, in a whole turn: the lookup is
    invoked once, with the string, or with "Unknown". *)
Example tool_call_plain_string_payload :
  let c := Demo.say (Demo.asking (PStr (lit "Paris")) Demo.weather_full)
                    (lit "weather?") in
  weather_lookups (new_events Demo.fresh (snd (run_call c Demo.fresh)))
    = [PStr (lit "Paris")]
  /\ fst (run_call c Demo.fresh) = Return (lit "It is clear in Paris.").
Proof. vm_compute. split; reflexivity. Qed.

Example tool_call_none_payload :
  let c := Demo.say (Demo.asking PNone Demo.weather_full) (lit "weather?") in
  weather_lookups (new_events Demo.fresh (snd (run_call c Demo.fresh)))
    = [PStr (lit "Unknown")]
  /\ fst (run_call c Demo.fresh) = Return (lit "It is clear in Paris.").
Proof. vm_compute. split; reflexivity. Qed.

End ChatFacts.

(* ===================================================================== *)
(** ** Construction and credentials *)
(* ===================================================================== *)

Section Construction.

Import Py.

(** The client cannot be constructed without a key. *)
Lemma chat_init_without_key (api_key_arg : option pystr) (model_arg : pystr)
    (environ : gmap pystr pystr) :
  Chat.truthy_opt api_key_arg = false ->
  Chat.truthy_opt (environ !! lit "GEMINI_API_KEY") = false ->
  Chat.init api_key_arg model_arg environ = Raise Chat.key_required.
Proof.
  intros Harg Henv. unfold Chat.init. rewrite Harg.
  destruct (environ !! lit "GEMINI_API_KEY") as [k|]; [|done].
  simpl in Henv. by rewrite Henv.
Qed.

(** The dispatcher's construction succeeds or fails with the scheduler,
    whatever the environment holds. *)
Lemma tools_init_any_environment (w : Dispatcher.World) (db : pystr)
    (environ environ' : gmap pystr pystr) (e : exn) :
  Dispatcher.init w db environ = Raise e ->
  Dispatcher.init w db environ' = Raise e.
Proof.
  unfold Dispatcher.init.
  destruct (Dispatcher.scheduler_start w db) as [store|e0]; [|done].
  by destruct (Dispatcher.add_job w store _ _ true) as [[? ?]|e1].
Qed.

(** A dispatcher constructed without one of its credentials answers
    every send with the credentials error and sends nothing. *)
Lemma tools_missing_credentials_deferred (w w' : Dispatcher.World)
    (db : pystr) (environ : gmap pystr pystr) (self : Dispatcher.Tools)
    (to_number message : pystr) :
  Dispatcher.init w db environ = Return self ->
  Dispatcher.truthy_opt (environ !! lit "TWILIO_ACCOUNT_SID")
  && Dispatcher.truthy_opt (environ !! lit "TWILIO_AUTH_TOKEN")
  && Dispatcher.truthy_opt (environ !! lit "TWILIO_WHATSAPP_FROM") = false ->
  Dispatcher.send_whatsapp w' to_number message self
  = (Return Dispatcher.credentials_error, self).
Proof.
  unfold Dispatcher.init.
  destruct (Dispatcher.scheduler_start w db) as [store|e0]; [|done].
  destruct (Dispatcher.add_job w store _ _ true) as [[? store']|e1]; [|done].
  intros [= <-] Hmiss. unfold Dispatcher.send_whatsapp. simpl.
  destruct (Dispatcher.truthy_opt (environ !! lit "TWILIO_ACCOUNT_SID")
            && Dispatcher.truthy_opt (environ !! lit "TWILIO_AUTH_TOKEN"));
    [|done].
  simpl in Hmiss. by rewrite Hmiss.
Qed.

(** C2, as stated, fails for the dispatcher: with no Twilio variable in
    the environment its construction returns an object, without a
    client. *)
Lemma tools_init_without_credentials :
  Dispatcher.init Demo.dworld Dispatcher.default_job_db ∅
  = Return Demo.bare_tools.
Proof. vm_compute. reflexivity. Qed.

(** C2, amended. Constructing the conversational client without a key
    (neither passed nor in GEMINI_API_KEY) raises at construction time.
    Constructing the dispatcher does not raise for a missing Twilio
    credential: it fails only as the scheduler does, whatever the
    environment; and the object constructed without one of the three
    credentials returns the credentials error string from every
    [send_whatsapp], staying as it is. *)
Theorem credentials_at_construction (api_key_arg : option pystr)
    (model_arg : pystr) (environ : gmap pystr pystr)
    (w : Dispatcher.World) (db : pystr) :
  (Chat.truthy_opt api_key_arg = false ->
   Chat.truthy_opt (environ !! lit "GEMINI_API_KEY") = false ->
   Chat.init api_key_arg model_arg environ = Raise Chat.key_required)
  /\ (forall environ' e,
        Dispatcher.init w db environ = Raise e ->
        Dispatcher.init w db environ' = Raise e)
  /\ (forall self w' to_number message,
        Dispatcher.init w db environ = Return self ->
        Dispatcher.truthy_opt (environ !! lit "TWILIO_ACCOUNT_SID")
        && Dispatcher.truthy_opt (environ !! lit "TWILIO_AUTH_TOKEN")
        && Dispatcher.truthy_opt (environ !! lit "TWILIO_WHATSAPP_FROM") = false ->
        Dispatcher.send_whatsapp w' to_number message self
        = (Return Dispatcher.credentials_error, self)).
Proof.
  split; [apply chat_init_without_key|].
  split; [intros environ' e; apply tools_init_any_environment|].
  intros self w' to_number message.
  apply tools_missing_credentials_deferred.
Qed.

Lemma credentials_at_construction_witness :
  Chat.init None (lit "gemini-2.5-flash") ∅ = Raise Chat.key_required
  /\ Dispatcher.send_whatsapp Demo.dworld (lit "+919800000000") (lit "hello")
       Demo.bare_tools
     = (Return Dispatcher.credentials_error, Demo.bare_tools).
Proof.
  pose proof (credentials_at_construction None (lit "gemini-2.5-flash") ∅
                Demo.dworld Dispatcher.default_job_db) as (Hchat & _ & Hsend).
  split.
  - apply Hchat; reflexivity.
  - apply (Hsend Demo.bare_tools Demo.dworld); vm_compute; reflexivity.
Defined.

(** A key given either way constructs the client, with an empty
    history. *)
Example chat_init_with_key :
  Chat.init (Some (lit "k")) (lit "gemini-2.5-flash") ∅
  = Return {| Chat.api_key := lit "k"; Chat.model := lit "gemini-2.5-flash";
              Chat.conversation_history := []; Chat.trace := [] |}
  /\ Chat.init None (lit "gemini-2.5-flash") {[ lit "GEMINI_API_KEY" := lit "k" ]}
     = Return {| Chat.api_key := lit "k"; Chat.model := lit "gemini-2.5-flash";
                 Chat.conversation_history := []; Chat.trace := [] |}.
Proof. vm_compute. split; reflexivity. Qed.

End Construction.

(* ===================================================================== *)
(** ** More on addresses *)
(* ===================================================================== *)

Section AddressFacts.

Import Py Dispatcher.
Local Open Scope N_scope.

Lemma lstrip_fixed (u : pystr) :
  lstrip u = u <-> match u with [] => True | c :: _ => isspace c = false end.
Proof.
  destruct u as [|c r]; [done|]. simpl.
  destruct (isspace c) eqn:Hc; [|done]. split; [|done].
  intros H. exfalso.
  assert (Hlen : forall s : pystr, (length (lstrip s) <= length s)%nat).
  { clear. induction s as [|a s IH]; simpl; [lia|].
    destruct (isspace a); simpl; lia. }
  specialize (Hlen r). rewrite H in Hlen. simpl in Hlen. lia.
Qed.

Lemma rstrip_fixed (s : pystr) :
  rstrip s = s <-> match last s with None => True | Some c => isspace c = false end.
Proof.
  unfold rstrip.
  assert (Hrev : rev (lstrip (rev s)) = s <-> lstrip (rev s) = rev s).
  { split; intros H.
    - by rewrite <- H at 2; rewrite rev_involutive.
    - by rewrite H, rev_involutive. }
  rewrite Hrev, lstrip_fixed.
  destruct s as [|a s] using rev_ind; [done|].
  by rewrite rev_app_distr, last_snoc.
Qed.

Lemma last_lstrip_char (c : N) (t : pystr) :
  lstrip_char c t = [] \/ last (lstrip_char c t) = last t.
Proof.
  induction t as [|a t IH]; simpl; [by left|].
  destruct (a =? c); [|by right].
  destruct IH as [->|IH]; [by left|].
  destruct t as [|b t]; [by left|right]. by rewrite IH.
Qed.

Lemma rstrip_lstrip_char (c : N) (t : pystr) :
  rstrip t = t -> rstrip (lstrip_char c t) = lstrip_char c t.
Proof.
  rewrite !rstrip_fixed. by destruct (last_lstrip_char c t) as [->| ->].
Qed.

Lemma strip_clean (p u : pystr) :
  negb (bool_decide (p = [])) && forallb (fun c => negb (isspace c)) p = true ->
  rstrip u = u ->
  strip (p ++ u) = p ++ u.
Proof.
  intros [Hne%negb_true_iff%bool_decide_eq_false Hp]%andb_prop Hu.
  unfold strip.
  assert (Hl : lstrip (p ++ u) = p ++ u).
  { destruct p as [|c p]; [done|]. simpl in *.
    apply andb_prop in Hp as [Hc _]. by destruct (isspace c). }
  by rewrite Hl, rstrip_app, Hu.
Qed.

Lemma startswith_app_app (p u q : pystr) :
  startswith (p ++ u) (p ++ q) = startswith u q.
Proof. induction p as [|c p IH]; simpl; [done|]. by rewrite N.eqb_refl. Qed.

Lemma startswith_lstrip_char (c : N) (t : pystr) :
  startswith (lstrip_char c t) [c] = false.
Proof.
  induction t as [|a t IH]; simpl; [done|].
  destruct (a =? c) eqn:Ha; [done|]. simpl.
  rewrite N.eqb_sym, Ha. done.
Qed.

(** Every recipient address handed on starts with "whatsapp:"; white
    space around the argument does not matter; an argument with the
    prefix is passed stripped, and any other is passed as "whatsapp:+"
    followed by the stripped argument without its leading plus, if it
    has one. *)
Theorem normalize_to_prefix (to_number : pystr) :
  startswith (normalize_to to_number) (lit "whatsapp:") = true
  /\ normalize_to (strip to_number) = normalize_to to_number
  /\ if startswith (strip to_number) (lit "whatsapp:")
     then normalize_to to_number = strip to_number
     else startswith (normalize_to to_number) (lit "whatsapp:+") = true
          /\ exists number,
               normalize_to to_number = lit "whatsapp:+" ++ number
               /\ strip to_number
                  = (if startswith (strip to_number) (lit "+")
                     then lit "+" else [])
                    ++ number.
Proof.
  unfold normalize_to. rewrite strip_strip.
  destruct (startswith (strip to_number) (lit "whatsapp:")) eqn:Hw.
  - done.
  - split; [|split; [done|]].
    + destruct (startswith (strip to_number) (lit "+")).
      * apply startswith_app.
      * change (lit "whatsapp:+") with (lit "whatsapp:" ++ lit "+").
        rewrite <- app_assoc. apply startswith_app.
    + destruct (startswith (strip to_number) (lit "+")) eqn:Hp.
      * change (lit "whatsapp:+") with (lit "whatsapp:" ++ lit "+").
        split; [by rewrite startswith_app_app|].
        destruct (strip to_number) as [|c number]; [done|].
        change (lit "+") with [43] in *. cbn [startswith] in Hp.
        apply andb_prop in Hp as [Hc%N.eqb_eq _]. subst c.
        exists number. by rewrite <- app_assoc.
      * split; [apply startswith_app|]. by exists (strip to_number).
Qed.

(** For a recipient without the prefix, the leading plus is optional:
    the number with and without it is passed on as the same address. *)
Theorem normalize_to_plus_optional (to_number : pystr) :
  startswith (strip to_number) (lit "whatsapp:") = false ->
  startswith (strip to_number) (lit "+") = false ->
  normalize_to (lit "+" ++ strip to_number) = normalize_to to_number.
Proof.
  intros Hw Hp. unfold normalize_to.
  rewrite strip_prefixed by reflexivity. rewrite Hw, Hp.
  change (startswith (lit "+" ++ strip to_number) (lit "whatsapp:")) with false.
  change (lit "+") with [43]. simpl startswith. cbv iota.
  change (lit "whatsapp:+") with (lit "whatsapp:" ++ [43]).
  by rewrite <- app_assoc.
Qed.

Lemma normalize_to_plus_optional_witness :
  startswith (strip (lit " 919800000000 ")) (lit "whatsapp:") = false
  /\ normalize_to (lit "+" ++ strip (lit " 919800000000 "))
     = normalize_to (lit " 919800000000 ").
Proof.
  split; [reflexivity|].
  apply (normalize_to_plus_optional (lit " 919800000000 ")); reflexivity.
Defined.

(** The sender normalization is idempotent as well. *)
Theorem normalize_from_idempotent (from_whatsapp : pystr) :
  normalize_from (normalize_from from_whatsapp) = normalize_from from_whatsapp.
Proof.
  unfold normalize_from.
  destruct (startswith (strip from_whatsapp) (lit "whatsapp:")) eqn:Hw.
  - by rewrite strip_strip, Hw.
  - rewrite strip_clean; [by rewrite startswith_app|reflexivity|].
    apply rstrip_lstrip_char, rstrip_strip.
Qed.

(** A sender without the prefix loses its leading plus signs: what is
    passed on is "whatsapp:" and the number, never "whatsapp:+". *)
Theorem normalize_from_drops_plus (from_whatsapp : pystr) :
  startswith (strip from_whatsapp) (lit "whatsapp:") = false ->
  normalize_from from_whatsapp
    = lit "whatsapp:" ++ lstrip_char 43 (strip from_whatsapp)
  /\ startswith (normalize_from from_whatsapp) (lit "whatsapp:+") = false.
Proof.
  intros Hw. unfold normalize_from. rewrite Hw. split; [done|].
  change (lit "whatsapp:+") with (lit "whatsapp:" ++ [43]).
  by rewrite startswith_app_app, startswith_lstrip_char.
Qed.

Lemma normalize_from_drops_plus_witness :
  startswith (strip (lit "+14150000000")) (lit "whatsapp:") = false
  /\ normalize_from (lit "+14150000000")
     = lit "whatsapp:" ++ lstrip_char 43 (strip (lit "+14150000000")).
Proof.
  split; [reflexivity|].
  apply (normalize_from_drops_plus (lit "+14150000000")); reflexivity.
Defined.

Example normalize_from_bare : normalize_from (lit "+14150000000") = lit "whatsapp:14150000000".
Proof. reflexivity. Qed.

Example normalize_to_bare : normalize_to (lit "+14150000000") = lit "whatsapp:+14150000000".
Proof. reflexivity. Qed.

End AddressFacts.

(* ===================================================================== *)
(** ** More on the dispatcher's operations *)
(* ===================================================================== *)

Section JobFacts.

Import Py Dispatcher Executor.
Local Open Scope Z_scope.

Lemma with_scheduler_same (self : Tools) :
  with_scheduler self (scheduler self) = self.
Proof. by destruct self. Qed.

Lemma with_scheduler_twice (self : Tools) (s1 s2 : gmap pystr Job) :
  with_scheduler (with_scheduler self s1) s2 = with_scheduler self s2.
Proof. reflexivity. Qed.

Lemma send_whatsapp_cases (w : World) (to_number message : pystr)
    (self : Tools) :
  let call := {| sent_body := message;
                 sent_from := normalize_from (default [] (from_whatsapp self));
                 sent_to := normalize_to to_number |} in
  exists s,
    fst (send_whatsapp w to_number message self) = Return s
    /\ scheduler (snd (send_whatsapp w to_number message self)) = scheduler self
    /\ if configured self
       then outbox (snd (send_whatsapp w to_number message self))
              = outbox self ++ [call]
            /\ s = match messages_create w call with
                   | Return msg =>
                     lit "📩 WhatsApp (Twilio) sent: sid=" ++ sid msg
                     ++ lit ", to=" ++ to msg
                   | Raise e => lit "❌ Twilio error: " ++ exn_str e
                   end
       else snd (send_whatsapp w to_number message self) = self
            /\ s = credentials_error.
Proof.
  intros call. unfold send_whatsapp, configured.
  destruct (client self) as [c|]; [|by eexists].
  destruct (truthy_opt (from_whatsapp self)); simpl; [|by eexists].
  fold call. destruct (messages_create w call) as [msg|e]; by eexists.
Qed.

(** [send_whatsapp] never raises and never touches the job store.  With
    the client and the sender configured it makes exactly one call to
    Twilio, with the message as body and both addresses normalized, and
    returns the sent text or the Twilio error text; otherwise it makes no
    call and returns the credentials error. *)
Theorem send_whatsapp_effects (w : World) (to_number message : pystr)
    (self : Tools) :
  let call := {| sent_body := message;
                 sent_from := normalize_from (default [] (from_whatsapp self));
                 sent_to := normalize_to to_number |} in
  exists s,
    fst (send_whatsapp w to_number message self) = Return s
    /\ scheduler (snd (send_whatsapp w to_number message self)) = scheduler self
    /\ if configured self
       then outbox (snd (send_whatsapp w to_number message self))
              = outbox self ++ [call]
            /\ s = match messages_create w call with
                   | Return msg =>
                     lit "📩 WhatsApp (Twilio) sent: sid=" ++ sid msg
                     ++ lit ", to=" ++ to msg
                   | Raise e => lit "❌ Twilio error: " ++ exn_str e
                   end
       else snd (send_whatsapp w to_number message self) = self
            /\ s = credentials_error.
Proof.
  intros call. unfold send_whatsapp, configured.
  destruct (client self) as [c|]; [|by eexists].
  destruct (truthy_opt (from_whatsapp self)); simpl; [|by eexists].
  fold call. destruct (messages_create w call) as [msg|e]; by eexists.
Qed.

(** A scheduled message is stored under the new job id, with the two
    arguments for [run_scheduled] and the run date [utcnow + delay] as
    the scheduler keeps it; the string returned names that job id and the
    run date as computed; the other jobs stay as they are, and nothing is
    sent yet. *)
Theorem schedule_whatsapp_registers (w : World) (to_number message : pystr)
    (delay_hours : pyval) (self : Tools) (run_time : Z) :
  run_time_of w delay_hours = Return run_time ->
  store_fault w = None ->
  scheduler self !! new_job_id w = None ->
  let self' := snd (schedule_whatsapp w to_number message delay_hours self) in
  fst (schedule_whatsapp w to_number message delay_hours self)
    = Return (lit "⏳ Scheduled WhatsApp message (job_id=" ++ new_job_id w
              ++ lit ") for " ++ str_datetime w run_time ++ lit " UTC")
  /\ scheduler self' !! new_job_id w
     = Some (whatsapp_job (stored_run_date w run_time) to_number message)
  /\ (forall j, j <> new_job_id w -> scheduler self' !! j = scheduler self !! j)
  /\ outbox self' = outbox self.
Proof.
  intros Ht Hok Hfresh. unfold schedule_whatsapp, add_job.
  rewrite Ht, Hok. cbn. rewrite Hfresh. cbn.
  split; [done|]. split; [by rewrite lookup_insert_eq|].
  split; [|done]. intros j Hj. by rewrite lookup_insert_ne.
Qed.

Lemma schedule_whatsapp_registers_witness :
  run_time_of Demo.dworld (PStr (lit "2")) = Return 63902829600000000
  /\ scheduler (snd (schedule_whatsapp Demo.dworld (lit "+1") (lit "m")
                       (PStr (lit "2")) Demo.bare_tools))
       !! new_job_id Demo.dworld
     = Some (whatsapp_job (stored_run_date Demo.dworld 63902829600000000)
               (lit "+1") (lit "m")).
Proof.
  split; [vm_compute; reflexivity|].
  apply (schedule_whatsapp_registers Demo.dworld (lit "+1") (lit "m")
           (PStr (lit "2")) Demo.bare_tools 63902829600000000);
    vm_compute; reflexivity.
Defined.

(** If the job store is still as [schedule_whatsapp] left it when the job
    id it assigned is cancelled (the job has not fired, no other job was
    added or removed), [cancel_job] returns the removed string and the
    job store is again exactly the one before the scheduling. *)
Theorem schedule_then_cancel (w w' : World) (to_number message : pystr)
    (delay_hours : pyval) (self later : Tools) (run_time : Z) :
  run_time_of w delay_hours = Return run_time ->
  store_fault w = None ->
  store_fault w' = None ->
  scheduler self !! new_job_id w = None ->
  scheduler later
    = scheduler (snd (schedule_whatsapp w to_number message delay_hours self)) ->
  cancel_job w' (new_job_id w) later
  = (Return (lit "✅ Removed job " ++ new_job_id w),
     with_scheduler later (scheduler self)).
Proof.
  intros Ht Hok Hok' Hfresh Hlater. revert Hlater.
  unfold schedule_whatsapp, add_job.
  rewrite Ht, Hok. cbn. rewrite Hfresh. cbn. intros Hlater.
  unfold cancel_job, remove_job. rewrite Hok', Hlater.
  rewrite lookup_insert_eq.
  by rewrite delete_insert_eq, delete_id.
Qed.

Lemma schedule_then_cancel_witness :
  scheduler Demo.bare_tools !! new_job_id Demo.dworld = None
  /\ cancel_job Demo.dworld (new_job_id Demo.dworld)
       (snd (schedule_whatsapp Demo.dworld (lit "+1") (lit "m")
               (PStr (lit "2")) Demo.bare_tools))
     = (Return (lit "✅ Removed job " ++ new_job_id Demo.dworld),
        with_scheduler
          (snd (schedule_whatsapp Demo.dworld (lit "+1") (lit "m")
                  (PStr (lit "2")) Demo.bare_tools))
          (scheduler Demo.bare_tools)).
Proof.
  split; [vm_compute; reflexivity|].
  apply (schedule_then_cancel Demo.dworld Demo.dworld (lit "+1") (lit "m")
           (PStr (lit "2")) Demo.bare_tools
           (snd (schedule_whatsapp Demo.dworld (lit "+1") (lit "m")
                   (PStr (lit "2")) Demo.bare_tools))
           63902829600000000);
    vm_compute; reflexivity.
Defined.

(** A failure of the job store while the job is added is not caught:
    [schedule_whatsapp] raises it, and the dispatcher is unchanged. *)
Theorem schedule_whatsapp_store_failure (w : World) (to_number message : pystr)
    (delay_hours : pyval) (self : Tools) (run_time : Z) (e : exn) :
  run_time_of w delay_hours = Return run_time ->
  store_fault w = Some e ->
  schedule_whatsapp w to_number message delay_hours self = (Raise e, self).
Proof.
  intros Ht He. unfold schedule_whatsapp, add_job. by rewrite Ht, He.
Qed.

Lemma schedule_whatsapp_store_failure_witness :
  run_time_of Demo2.broken_store (PStr (lit "2")) = Return 63902829600000000
  /\ schedule_whatsapp Demo2.broken_store (lit "+1") (lit "m") (PStr (lit "2"))
       Demo.bare_tools
     = (Raise (Exn OtherError (lit "database is locked")), Demo.bare_tools).
Proof.
  split; [vm_compute; reflexivity|].
  apply (schedule_whatsapp_store_failure Demo2.broken_store (lit "+1") (lit "m")
           (PStr (lit "2")) Demo.bare_tools 63902829600000000);
    vm_compute; reflexivity.
Defined.

(** A delay that is a number but takes the fire time out of the range of
    [datetime] is answered like one that is no number: the validation
    string, and no job. *)
Theorem schedule_whatsapp_out_of_range (w : World) (to_number message : pystr)
    (delay_hours : pyval) (self : Tools) (f : pystr) (delta : Z) :
  py_float w delay_hours = Return f ->
  timedelta_hours w f = Return delta ->
  utcnow w + delta < 0 \/ datetime_max < utcnow w + delta ->
  schedule_whatsapp w to_number message delay_hours self
  = (Return invalid_delay, self).
Proof.
  intros Hf Hd Hrange. unfold schedule_whatsapp, run_time_of, datetime_add.
  rewrite Hf, Hd.
  destruct (0 <=? utcnow w + delta) eqn:H0;
    destruct (utcnow w + delta <=? datetime_max) eqn:H1; simpl; try done.
  apply Z.leb_le in H0. apply Z.leb_le in H1. lia.
Qed.

Lemma schedule_whatsapp_out_of_range_witness :
  py_float Demo2.last_moment (PStr (lit "2")) = Return (lit "2.0")
  /\ schedule_whatsapp Demo2.last_moment (lit "+1") (lit "m") (PStr (lit "2"))
       Demo.bare_tools
     = (Return invalid_delay, Demo.bare_tools).
Proof.
  split; [vm_compute; reflexivity|].
  apply (schedule_whatsapp_out_of_range Demo2.last_moment (lit "+1") (lit "m")
           (PStr (lit "2")) Demo.bare_tools (lit "2.0") 7200000000).
  - vm_compute; reflexivity.
  - vm_compute; reflexivity.
  - right. vm_compute. reflexivity.
Defined.

(** Cancelling a job that is in the store removes that job and no other;
    cancelling it a second time returns the error string and changes
    nothing. *)
Theorem cancel_job_removes (w w' : World) (job_id : pystr) (self : Tools)
    (job : Job) :
  scheduler self !! job_id = Some job ->
  store_fault w = None ->
  let self' := snd (cancel_job w job_id self) in
  fst (cancel_job w job_id self) = Return (lit "✅ Removed job " ++ job_id)
  /\ scheduler self' !! job_id = None
  /\ (forall j, j <> job_id -> scheduler self' !! j = scheduler self !! j)
  /\ snd (cancel_job w' job_id self') = self'
  /\ exists msg, fst (cancel_job w' job_id self') = Return msg
                 /\ startswith msg (lit "❌") = true.
Proof.
  intros Hjob Hok self'.
  assert (Hself : self' = with_scheduler self (delete job_id (scheduler self))).
  { subst self'. unfold cancel_job, remove_job. by rewrite Hok, Hjob. }
  split; [unfold cancel_job, remove_job; by rewrite Hok, Hjob|].
  rewrite Hself. simpl.
  split; [by rewrite lookup_delete_eq|].
  split; [intros j Hj; by rewrite lookup_delete_ne|].
  unfold cancel_job, remove_job. simpl. rewrite lookup_delete_eq.
  destruct (store_fault w') as [e|]; simpl; (split; [done|]); by eexists.
Qed.

Lemma cancel_job_removes_witness :
  scheduler Demo.bare_tools !! lit "heartbeat_job" = Some Demo.heartbeat
  /\ fst (cancel_job Demo.dworld (lit "heartbeat_job") Demo.bare_tools)
     = Return (lit "✅ Removed job " ++ lit "heartbeat_job").
Proof.
  split; [vm_compute; reflexivity|].
  apply (cancel_job_removes Demo.dworld Demo.dworld (lit "heartbeat_job")
           Demo.bare_tools Demo.heartbeat); vm_compute; reflexivity.
Defined.

(** When the scheduler starts and the scheduler's calls work,
    construction succeeds whatever the environment holds and whatever
    jobs the scheduler has, a heartbeat job left by a previous run
    included: the heartbeat job replaces it, without an id conflict, and
    is registered under "heartbeat_job" with its 30 second interval. *)
Theorem init_registers_heartbeat (w : World) (db : pystr)
    (environ : gmap pystr pystr) (store : gmap pystr Job) :
  scheduler_start w db = Return store ->
  store_fault w = None ->
  exists self,
    init w db environ = Return self
    /\ scheduler self !! lit "heartbeat_job" = Some heartbeat_job.
Proof.
  intros Hstart Hok. unfold init, add_job. rewrite Hstart, Hok. cbn.
  destruct (store !! lit "heartbeat_job") as [old|]; eexists;
    (split; [reflexivity|]); cbn; by rewrite lookup_insert_eq.
Qed.

Lemma init_registers_heartbeat_witness :
  scheduler_start Demo2.restarted default_job_db
    = Return {[ lit "heartbeat_job" := Demo2.old_heartbeat ]}
  /\ exists self,
       init Demo2.restarted default_job_db ∅ = Return self
       /\ scheduler self !! lit "heartbeat_job" = Some heartbeat_job.
Proof.
  split; [reflexivity|].
  apply (init_registers_heartbeat Demo2.restarted default_job_db ∅
           {[ lit "heartbeat_job" := Demo2.old_heartbeat ]}); reflexivity.
Defined.

(** When a scheduled job fires, the message given to [schedule_whatsapp]
    is sent exactly once, to the normalized recipient, through the
    registered instance if it is configured; with no instance registered
    nothing is sent and the runner returns its error string. *)
Theorem scheduled_job_fires (w w' : World) (to_number message : pystr)
    (delay_hours : pyval) (self : Tools) (run_time : Z) :
  run_time_of w delay_hours = Return run_time ->
  store_fault w = None ->
  scheduler self !! new_job_id w = None ->
  let self' := snd (schedule_whatsapp w to_number message delay_hours self) in
  exists job,
    scheduler self' !! new_job_id w = Some job
    /\ run_job w' job None
       = (Return (Some (lit "❌ No Tools instance available to send message.")),
          None)
    /\ forall inst,
         configured inst = true ->
         exists s inst',
           run_job w' job (Some inst) = (Return (Some s), Some inst')
           /\ scheduler inst' = scheduler inst
           /\ outbox inst'
              = outbox inst
                ++ [{| sent_body := message;
                       sent_from := normalize_from (default [] (from_whatsapp inst));
                       sent_to := normalize_to to_number |}].
Proof.
  intros Ht Hok Hfresh self'.
  exists (whatsapp_job (stored_run_date w run_time) to_number message).
  split.
  { subst self'. unfold schedule_whatsapp, add_job.
    rewrite Ht, Hok. cbn. rewrite Hfresh. cbn. by rewrite lookup_insert_eq. }
  split; [done|].
  intros inst Hconf. unfold run_job, run_scheduled. simpl.
  pose proof (send_whatsapp_cases w' to_number message inst) as Hsend.
  cbv zeta in Hsend. destruct Hsend as (s & Hs & Hsched & Hbox).
  rewrite Hconf in Hbox. destruct Hbox as [Hbox _].
  destruct (send_whatsapp w' to_number message inst) as [o inst'].
  simpl in *. subst o. by exists s, inst'.
Qed.

Lemma scheduled_job_fires_witness :
  run_time_of Demo.dworld (PStr (lit "2")) = Return 63902829600000000
  /\ exists job,
       scheduler (snd (schedule_whatsapp Demo.dworld (lit "+1") (lit "m")
                         (PStr (lit "2")) Demo2.ready_tools))
         !! new_job_id Demo.dworld = Some job
       /\ run_job Demo.dworld job None
          = (Return (Some (lit "❌ No Tools instance available to send message.")),
             None)
       /\ forall inst,
            configured inst = true ->
            exists s inst',
              run_job Demo.dworld job (Some inst) = (Return (Some s), Some inst')
              /\ scheduler inst' = scheduler inst
              /\ outbox inst'
                 = outbox inst
                   ++ [{| sent_body := lit "m";
                          sent_from := normalize_from (default [] (from_whatsapp inst));
                          sent_to := normalize_to (lit "+1") |}].
Proof.
  split; [vm_compute; reflexivity|].
  apply (scheduled_job_fires Demo.dworld Demo.dworld (lit "+1") (lit "m")
           (PStr (lit "2")) Demo2.ready_tools 63902829600000000);
    vm_compute; reflexivity.
Defined.

(** The job scheduled above, fired through a configured instance. *)
Example fired_job_sends :
  outbox <$> snd (run_job Demo.dworld
                    (whatsapp_job 63902829600000000 (lit " 919800000000 ") (lit "m"))
                    (Some Demo2.ready_tools))
  = Some [{| sent_body := lit "m"; sent_from := lit "whatsapp:14150000000";
             sent_to := lit "whatsapp:+919800000000" |}].
Proof. vm_compute. reflexivity. Qed.

End JobFacts.

(* ===================================================================== *)
(** ** More on the weather lookup and the tool calls *)
(* ===================================================================== *)

Section ToolFacts.

Import Py Chat Obs.
Local Open Scope py_scope.

Lemma pure_state {A} (m : M A) (st : Client) :
  adds_only (fun _ => False) m -> snd (m st) = st.
Proof.
  intros Hm. destruct (Hm st) as (evs & Hevs & ->).
  destruct evs as [|ev evs]; [|by inversion Hevs].
  by rewrite app_nil_r, with_trace_same.
Qed.

Ltac pure_steps :=
  repeat first
    [ apply adds_bind; [|intros ?]
    | apply adds_ret
    | apply adds_lift ].

Lemma get_weather_state (w : World) (city : pyval) (st : Client) :
  snd (get_weather w city st)
  = with_trace st (trace st ++ EvGetWeather city :: weather_requests w city).
Proof.
  unfold get_weather, bind at 1, emit. rewrite try_except_returns.
  cbn [snd]. rewrite bind_lift.
  destruct city; try reflexivity.
  cbn [strip_val weather_requests]. unfold weather_url. rewrite bind_lift.
  destruct (quote w (strip s)) as [city_enc|e]; [|reflexivity].
  unfold bind at 1, call_requests_get.
  cbn [trace with_trace].
  destruct (requests_get w _ _) as [response|e].
  - rewrite pure_state by pure_steps.
    cbn. by rewrite <- app_assoc.
  - cbn. by rewrite <- app_assoc.
Qed.

(** [get_weather] never raises and leaves the conversation history as it
    is; a city that is a string and that [quote] accepts costs exactly
    one request, to the wttr.in URL of the stripped and quoted city; a
    city that is not a string, or that [quote] rejects, costs none. *)
Theorem get_weather_effects (w : World) (city : pyval) (st : Client) :
  exists s,
    get_weather w city st
    = (Return s,
       with_trace st (trace st ++ EvGetWeather city :: weather_requests w city)).
Proof.
  destruct (get_weather_returns w city st) as [s Hs]. exists s.
  rewrite <- get_weather_state, <- Hs. by destruct (get_weather w city st).
Qed.

(** A city that [quote] rejects: the error string, and no request. *)
Example get_weather_unquotable :
  get_weather Demo2.unquotable (PStr [55357]) Demo.fresh
  = (Return (lit "Error fetching weather for " ++ [55357]
             ++ lit ": 'utf-8' codec can't encode character: surrogates not allowed"),
     with_trace Demo.fresh [EvGetWeather (PStr [55357])]).
Proof. vm_compute. reflexivity. Qed.

Lemma get_weather_unfold (w : World) (c : pystr) (st : Client) :
  fst (get_weather w (PStr c) st)
  = Return
      match
        (data <- lift (weather_fetch w (S (length (trace st))) (weather_url w c)) ;;
         cc <- lift (getitem_key data (lit "current_condition")) ;;
         cur <- lift (getitem_0 cc) ;;
         temp_c <- lift (get cur (lit "temp_C") (PStr (lit "N/A"))) ;;
         wd <- lift (getitem_key cur (lit "weatherDesc")) ;;
         wd0 <- lift (getitem_0 wd) ;;
         condition <- lift (getitem_key wd0 (lit "value")) ;;
         humidity <- lift (get cur (lit "humidity") (PStr (lit "N/A"))) ;;
         wind_kmph <- lift (get cur (lit "windspeedKmph") (PStr (lit "N/A"))) ;;
         feels_like_c <- lift (get cur (lit "FeelsLikeC") (PStr (lit "N/A"))) ;;
         ret (lit "🌤️ Weather in " ++ c ++ lit ": " ++ fmt w temp_c
              ++ lit "°C, " ++ fmt w condition
              ++ lit ", Humidity: " ++ fmt w humidity
              ++ lit "%, Wind: " ++ fmt w wind_kmph
              ++ lit " km/h, Feels like: " ++ fmt w feels_like_c ++ lit "°C"))
          st
      with
      | (Return s, _) => s
      | (Raise e, _) =>
        lit "Error fetching weather for " ++ c ++ lit ": " ++ exn_str e
      end.
Proof.
  unfold get_weather, bind at 1, emit. rewrite try_except_returns.
  cbn [fst]. f_equal.
  unfold weather_fetch, weather_url, bind, lift, call_requests_get.
  cbn -[get getitem_key getitem_0 lit].
  destruct (quote w (strip c)) as [city_enc|e]; [|done].
  cbn -[get getitem_key getitem_0 lit].
  rewrite length_app, Nat.add_1_r.
  destruct (requests_get w _ _) as [response|e]; [|done].
  destruct (raise_for_status response) as [[]|e]; [|done].
  destruct (json response) as [data|e]; [|done].
  destruct (getitem_key data _) as [cc|e]; [|done].
  destruct (getitem_0 cc) as [cur|e]; [|done].
  destruct (get cur (lit "temp_C") _) as [temp_c|e]; [|done].
  destruct (getitem_key cur _) as [wd|e]; [|done].
  destruct (getitem_0 wd) as [wd0|e]; [|done].
  destruct (getitem_key wd0 _) as [condition|e]; [|done].
  destruct (get cur (lit "humidity") _) as [humidity|e]; [|done].
  destruct (get cur (lit "windspeedKmph") _) as [wind|e]; [|done].
  by destruct (get cur (lit "FeelsLikeC") _) as [feels|e].
Qed.

(** Whatever fails while the weather is fetched, the quoting of the
    city, the request, the status check or the decoding of the body, the
    lookup returns the error string with the city and the text of the
    exception. *)
Theorem get_weather_fetch_error (w : World) (c : pystr) (st : Client) (e : exn) :
  weather_fetch w (S (length (trace st))) (weather_url w c) = Raise e ->
  fst (get_weather w (PStr c) st)
  = Return (lit "Error fetching weather for " ++ c ++ lit ": " ++ exn_str e).
Proof.
  intros He. rewrite get_weather_unfold. by rewrite bind_lift, He.
Qed.

Lemma get_weather_fetch_error_witness :
  weather_fetch (Demo2.offline PNone) (S (length (trace Demo.fresh)))
      (weather_url (Demo2.offline PNone) (lit "Paris"))
    = Raise (Exn OtherError (lit "connection timed out"))
  /\ fst (get_weather (Demo2.offline PNone) (PStr (lit "Paris")) Demo.fresh)
     = Return (lit "Error fetching weather for " ++ lit "Paris" ++ lit ": "
               ++ exn_str (Exn OtherError (lit "connection timed out"))).
Proof.
  split; [vm_compute; reflexivity|].
  apply (get_weather_fetch_error (Demo2.offline PNone) (lit "Paris") Demo.fresh
           (Exn OtherError (lit "connection timed out"))).
  vm_compute; reflexivity.
Defined.

(** When the body has a first current condition with a description, the
    lookup returns the weather line with the city as given and the five
    values, each of temperature, humidity, wind speed and feels-like
    replaced by "N/A" when its key is absent. *)
Theorem get_weather_line (w : World) (c : pystr) (st : Client)
    (d cur wd : gmap pystr pyval) (rest rest' : list pyval) (condition : pyval) :
  weather_fetch w (S (length (trace st))) (weather_url w c) = Return (PDict d) ->
  d !! lit "current_condition" = Some (PList (PDict cur :: rest)) ->
  cur !! lit "weatherDesc" = Some (PList (PDict wd :: rest')) ->
  wd !! lit "value" = Some condition ->
  let field k := fmt w (default (PStr (lit "N/A")) (cur !! k)) in
  fst (get_weather w (PStr c) st)
  = Return (lit "🌤️ Weather in " ++ c ++ lit ": " ++ field (lit "temp_C")
            ++ lit "°C, " ++ fmt w condition
            ++ lit ", Humidity: " ++ field (lit "humidity")
            ++ lit "%, Wind: " ++ field (lit "windspeedKmph")
            ++ lit " km/h, Feels like: " ++ field (lit "FeelsLikeC") ++ lit "°C").
Proof.
  intros Hd Hcc Hwd Hv field. rewrite get_weather_unfold.
  unfold bind, lift. rewrite Hd. cbn. rewrite Hcc. cbn. rewrite Hwd. cbn.
  rewrite Hv. reflexivity.
Qed.

Lemma get_weather_line_witness :
  let w := Demo.cworld (Raise (Exn OtherError [])) Demo.weather_no_temperature in
  fst (get_weather w (PStr (lit "Paris")) Demo.fresh)
  = Return (lit "🌤️ Weather in " ++ lit "Paris" ++ lit ": "
            ++ lit "N/A" ++ lit "°C, " ++ lit "Clear"
            ++ lit ", Humidity: " ++ lit "40"
            ++ lit "%, Wind: " ++ lit "10"
            ++ lit " km/h, Feels like: " ++ lit "17" ++ lit "°C").
Proof.
  intros w.
  pose proof (get_weather_line w (lit "Paris") Demo.fresh
                {[ lit "current_condition" :=
                     PList [PDict (list_to_map
                              [Demo.description (lit "Clear");
                               (lit "humidity", PStr (lit "40"));
                               (lit "windspeedKmph", PStr (lit "10"));
                               (lit "FeelsLikeC", PStr (lit "17"))])] ]}
                (list_to_map
                   [Demo.description (lit "Clear");
                    (lit "humidity", PStr (lit "40"));
                    (lit "windspeedKmph", PStr (lit "10"));
                    (lit "FeelsLikeC", PStr (lit "17"))])
                {[ lit "value" := PStr (lit "Clear") ]} [] []
                (PStr (lit "Clear"))) as H.
  rewrite H; [vm_compute; reflexivity|vm_compute; reflexivity..].
Defined.

(** *** The parts of a reply and the tool calls *)

(** The loop over the parts collects the function calls in order, and
    concatenates the text of the parts that carry no function call: the
    text of a part with a function call is dropped. *)
Theorem scan_parts_split (ps : list Part) (response_text : pystr)
    (tool_calls : list FunctionCall) :
  scan_parts ps response_text tool_calls
  = (response_text ++ plain_text ps, tool_calls ++ function_calls ps).
Proof.
  revert response_text tool_calls. unfold function_calls.
  induction ps as [|p ps IH]; intros rt tcs; simpl.
  - by rewrite !app_nil_r.
  - destruct (function_call p) as [fc|]; simpl.
    + by rewrite IH, <- app_assoc.
    + destruct (text p) as [t|]; [|done]. by rewrite IH, <- app_assoc.
Qed.

Lemma weather_lookups_app (a b : list Event) :
  weather_lookups (a ++ b) = weather_lookups a ++ weather_lookups b.
Proof.
  induction a as [|ev a IH]; [done|].
  destruct ev; simpl; by rewrite ?IH.
Qed.

Lemma weather_lookups_requests (w : World) (city : pyval) :
  weather_lookups (weather_requests w city) = [].
Proof.
  destruct city; try done. simpl. by destruct (weather_url w s).
Qed.

(** A get_weather call whose payload gives a city runs the lookup in the
    state it is in, and returns the lookup's text under its name. *)
Lemma tool_call_runs_lookup (w : World) (tc : FunctionCall) (city : pyval)
    (st : Client) :
  name tc = lit "get_weather" ->
  get (normalize_args w (arguments tc)) (lit "city") (PStr (lit "Unknown"))
    = Return city ->
  exists r,
    fst (get_weather w city st) = Return r
    /\ tool_call_result w tc st
       = (Return {| tool_call_id := name tc; tr_content := r |},
          with_trace st
            (trace st ++ EvGetWeather city :: weather_requests w city)).
Proof.
  intros Hname Hcity. unfold tool_call_result. rewrite Hname.
  change (eqb (lit "get_weather") (lit "get_weather")) with true. cbv iota.
  cbv zeta. rewrite bind_lift, Hcity. unfold bind, ret.
  pose proof (get_weather_state w city st) as Hst.
  destruct (get_weather_returns w city st) as [r Hr].
  destruct (get_weather w city st) as [o st'].
  simpl in *. subst o st'. by exists r.
Qed.

Lemma tool_call_result_answers (w : World) (tc : FunctionCall) (st : Client) :
  exists evs,
    snd (tool_call_result w tc st) = with_trace st (trace st ++ evs)
    /\ forall r,
         fst (tool_call_result w tc st) = Return r ->
         answers tc r
         /\ length (weather_lookups evs) = length (weather_calls [tc]).
Proof.
  unfold weather_calls.
  destruct (decide (name tc = lit "get_weather")) as [Hname|Hname].
  - rewrite filter_cons_True by done.
    destruct (get (normalize_args w (arguments tc)) (lit "city")
                (PStr (lit "Unknown"))) as [city|e] eqn:Hcity.
    + destruct (tool_call_runs_lookup w tc city st Hname Hcity) as (s & _ & ->).
      eexists. split; [reflexivity|]. simpl. intros r [= <-].
      split; [by split|]. by rewrite weather_lookups_requests.
    + exists []. unfold tool_call_result. rewrite Hname.
      change (eqb (lit "get_weather") (lit "get_weather")) with true.
      cbv iota zeta. rewrite bind_lift, Hcity. simpl.
      split; [by rewrite app_nil_r, with_trace_same|done].
  - rewrite filter_cons_False by done.
    exists []. unfold tool_call_result, eqb. rewrite bool_decide_eq_false_2 by done.
    simpl. split; [by rewrite app_nil_r, with_trace_same|].
    intros r [= <-]. by split.
Qed.

Lemma run_tool_calls_answers (w : World) (tcs : list FunctionCall)
    (acc : list ToolResult) (st : Client) :
  exists evs,
    snd (run_tool_calls w tcs acc st) = with_trace st (trace st ++ evs)
    /\ forall rs,
         fst (run_tool_calls w tcs acc st) = Return rs ->
         exists rs',
           rs = acc ++ rs'
           /\ Forall2 answers tcs rs'
           /\ length (weather_lookups evs) = length (weather_calls tcs).
Proof.
  revert acc st. induction tcs as [|tc tcs IH]; intros acc st.
  - exists []. simpl. split; [by rewrite app_nil_r, with_trace_same|].
    intros rs [= <-]. exists []. by rewrite app_nil_r.
  - simpl. unfold bind.
    destruct (tool_call_result_answers w tc st) as (e1 & Hst1 & Hr).
    destruct (tool_call_result w tc st) as [[r|e] st1]; simpl in *; subst st1.
    + destruct (Hr r eq_refl) as [Hans Hlen].
      destruct (IH (acc ++ [r]) (with_trace st (trace st ++ e1)))
        as (e2 & Hst2 & Hrs).
      exists (e1 ++ e2). split.
      { rewrite Hst2. simpl. by rewrite app_assoc. }
      intros rs Hfst. destruct (Hrs rs Hfst) as (rs' & -> & Hall & Hlen2).
      exists (r :: rs'). split; [by rewrite <- app_assoc|].
      split; [by constructor|].
      rewrite weather_lookups_app, length_app, Hlen, Hlen2.
      unfold weather_calls. change (tc :: tcs) with ([tc] ++ tcs).
      by rewrite filter_app, length_app.
    + exists e1. split; [done|]. intros rs [=].
Qed.

(** When the loop over the tool calls returns, there is one result per
    call, in order and under the call's name; a tool other than
    get_weather is answered with "Tool '<name>' not implemented."; the
    weather has been looked up once per get_weather call; and the
    history is untouched. *)
Theorem run_tool_calls_results (w : World) (tcs : list FunctionCall)
    (st : Client) (rs : list ToolResult) :
  fst (run_tool_calls w tcs [] st) = Return rs ->
  let st' := snd (run_tool_calls w tcs [] st) in
  Forall2 answers tcs rs
  /\ length (weather_lookups (new_events st st')) = length (weather_calls tcs)
  /\ conversation_history st' = conversation_history st.
Proof.
  intros Hrs st'. subst st'.
  destruct (run_tool_calls_answers w tcs [] st) as (evs & -> & H).
  destruct (H rs Hrs) as (rs' & -> & Hall & Hlen).
  by rewrite new_events_app.
Qed.

Lemma run_tool_calls_results_witness :
  let w := Demo.asking PNone Demo.weather_full in
  let tcs := [{| name := lit "get_weather"; arguments := PNone |};
              {| name := lit "get_time"; arguments := PNone |}] in
  let rs := [{| tool_call_id := lit "get_weather";
                tr_content := lit "🌤️ Weather in Unknown: 18°C, Clear, Humidity: 40%, Wind: 10 km/h, Feels like: 17°C" |};
             {| tool_call_id := lit "get_time";
                tr_content := lit "Tool 'get_time' not implemented." |}] in
  fst (run_tool_calls w tcs [] Demo.fresh) = Return rs
  /\ Forall2 answers tcs rs.
Proof.
  intros w tcs rs. split; [vm_compute; reflexivity|].
  apply (run_tool_calls_results w tcs Demo.fresh rs). vm_compute; reflexivity.
Defined.

(** The round trip of one weather tool call: when the model answers the
    user's message with one get_weather call whose payload gives a city,
    the turn starts the chat, sends the message, looks the weather up
    once for that city (with one request if the city is a string that
    [quote] accepts, and none otherwise), and sends the lookup's text,
    verbatim and alone, as the follow-up message, after appending the
    user message, the model's text and the tool entry with that same
    text. *)
Theorem tool_round_trip (w : World) (um : pystr) (sm : option pystr) (mt : Z)
    (temp : pyval) (st : Client) (resp : Response) (c : chat w)
    (cont : Content) (rt : pystr) (tc : FunctionCall) (city : pyval) :
  model_reply w (conversation_history st) um mt temp = Return (resp, c) ->
  first_candidate resp = Return cont ->
  scan_parts (default [] (parts cont)) [] [] = (rt, [tc]) ->
  name tc = lit "get_weather" ->
  get (normalize_args w (arguments tc)) (lit "city") (PStr (lit "Unknown"))
    = Return city ->
  let h := conversation_history st in
  exists r,
    fst (get_weather w city (tool_state st um)) = Return r
    /\ new_events st (snd (chat_completion_with_tools w um sm mt temp st))
       = [EvStartChat h (map format_msg h); EvSendMessage h um tools;
          EvGetWeather city]
         ++ weather_requests w city
         ++ [EvSendMessage
               (h ++ [user_msg um;
                      assistant_msg (if truthy rt then rt else []);
                      tool_msg r])
               r []].
Proof.
  intros Hreply Hcand Hscan Hname Hcity h. subst h.
  destruct (tool_call_runs_lookup w tc city (tool_state st um) Hname Hcity)
    as (r & Hr & Htool).
  exists r. split; [done|].
  rewrite chat_completion_unfold. cbn [snd].
  unfold model_reply in Hreply.
  unfold chat_completion_body, bind at 1 2 3 4, read_history, call_start_chat,
    call_send_message.
  destruct (start_chat w _) as [c0|e]; [|done].
  cbn [conversation_history with_trace trace].
  rewrite Hreply. unfold lift at 1. rewrite Hcand, Hscan.
  unfold bind at 1, append at 1.
  cbn [run_tool_calls]. unfold bind at 1 2.
  change (tool_call_result w tc _)
    with (tool_call_result w tc (tool_state st um)).
  rewrite Htool. unfold ret at 1.
  unfold bind, append, call_send_message, lift, ret.
  cbn [conversation_history with_history with_trace trace tool_state app join map
       tr_content].
  destruct (send_message w c _ _ []) as [[fin c']|e];
    [destruct (resp_text fin) as [ft|e]|];
    unfold new_events; cbn [snd trace with_history with_trace];
    rewrite <- !app_assoc; rewrite drop_app_length; reflexivity.
Qed.

Lemma tool_round_trip_witness :
  let w := Demo.asking (PDict {[ lit "city" := PStr (lit "Paris") ]})
             Demo.weather_full in
  let tc := {| name := lit "get_weather";
               arguments := PDict {[ lit "city" := PStr (lit "Paris") ]} |} in
  model_reply w [] (lit "weather?") 200 (PFloat (lit "0.7"))
    = Return (Demo.tool_reply (arguments tc), tt)
  /\ exists r,
       fst (get_weather w (PStr (lit "Paris")) (tool_state Demo.fresh (lit "weather?")))
         = Return r
       /\ new_events Demo.fresh
            (snd (chat_completion_with_tools w (lit "weather?") None 200
                    (PFloat (lit "0.7")) Demo.fresh))
          = [EvStartChat [] (map format_msg []); EvSendMessage [] (lit "weather?") tools;
             EvGetWeather (PStr (lit "Paris"))]
            ++ weather_requests w (PStr (lit "Paris"))
            ++ [EvSendMessage
                  ([] ++ [user_msg (lit "weather?");
                          assistant_msg (if truthy [] then [] else []);
                          tool_msg r])
                  r []].
Proof.
  intros w tc. split; [vm_compute; reflexivity|].
  apply (tool_round_trip w (lit "weather?") None 200 (PFloat (lit "0.7"))
           Demo.fresh (Demo.tool_reply (arguments tc)) tt
           {| parts := Some [{| function_call := Some tc; text := Some [] |}] |}
           [] tc (PStr (lit "Paris")));
    vm_compute; reflexivity.
Defined.

End ToolFacts.

(* ===================================================================== *)
(** ** More on the conversation history *)
(* ===================================================================== *)

Section HistoryFacts.

Import Py Chat Obs.
Local Open Scope py_scope.

Lemma appended_bounds (um : pystr) (o : outcome pystr) (seg : list Msg) :
  appended um o seg -> (length seg <= 4)%nat /\ Forall stored_role seg.
Proof.
  assert (Hu : stored_role (user_msg um)) by (by left).
  assert (Ha : forall s, stored_role (assistant_msg s)) by (by right; left).
  assert (Ht : forall s, stored_role (tool_msg s)) by (by right; right).
  destruct o as [r|e]; simpl.
  - intros [->|(rt & tj & ->)]; (split; [simpl; lia|repeat constructor; done]).
  - intros [->|[->|(rt & tj & ->)]];
      (split; [simpl; lia|repeat constructor; done]).
Qed.

(** The history is append-only over any sequence of calls: what was
    stored stays in front, every call adds at most four entries, and the
    roles stored are "user", "assistant" and "tool" only. *)
Theorem history_append_only (calls : list Call) (st : Client) :
  let h := conversation_history st in
  let h' := conversation_history (snd (run_calls calls st)) in
  h `prefix_of` h'
  /\ (length h' <= length h + 4 * length calls)%nat
  /\ (Forall stored_role h -> Forall stored_role h').
Proof.
  revert st. induction calls as [|c calls IH]; intros st; simpl.
  - split; [done|]. split; [lia|done].
  - destruct (call_appends c st) as (seg & Hseg & Happ).
    apply appended_bounds in Happ as [Hlen Hroles].
    destruct (run_call c st) as [o st1]. simpl in Hseg.
    specialize (IH st1). simpl in IH.
    destruct (run_calls calls st1) as [rs st2]. simpl in *.
    destruct IH as (Hpre & Hl & Hr). rewrite Hseg in Hpre, Hl, Hr.
    split; [by etrans; [apply prefix_app_r|exact Hpre]|].
    split; [rewrite length_app in Hl; lia|].
    intros Hh. apply Hr. by apply Forall_app.
Qed.

(** A call that ends in the error string has appended nothing, or the
    user message alone, or the user message with the model's text and the
    tool entry; it has not appended a final reply. *)
Theorem failed_call_history (c : Call) (st : Client) (e : exn) :
  fst (run_body c st) = Raise e ->
  let h := conversation_history st in
  let h' := conversation_history (snd (run_call c st)) in
  fst (run_call c st) = Return (api_error e)
  /\ (h' = h
      \/ h' = h ++ [user_msg (user_message c)]
      \/ exists rt tj,
           h' = h ++ [user_msg (user_message c); assistant_msg rt; tool_msg tj]).
Proof.
  intros He h h'. subst h h'.
  destruct (call_appends c st) as (seg & -> & Happ).
  rewrite He in Happ. simpl in Happ. split.
  - unfold run_call. rewrite chat_completion_unfold. simpl.
    unfold run_body in He. by rewrite He.
  - destruct Happ as [->|[->|(rt & tj & ->)]]; [left|right; left|right; right].
    + by rewrite app_nil_r.
    + done.
    + by exists rt, tj.
Qed.

Lemma failed_call_history_witness :
  let c := Demo.say (Demo.asking (PStr (lit "[]")) Demo.weather_full)
                    (lit "weather?") in
  fst (run_body c Demo.fresh)
    = Raise (no_attribute (PList []) (lit "get"))
  /\ fst (run_call c Demo.fresh)
     = Return (api_error (no_attribute (PList []) (lit "get"))).
Proof.
  intros c. split; [vm_compute; reflexivity|].
  apply (failed_call_history c Demo.fresh (no_attribute (PList []) (lit "get"))).
  vm_compute; reflexivity.
Defined.

(** The system message never matters: a whole sequence of calls, with
    whatever system messages, returns the same strings and leaves the
    same object, trace of outside calls included, as the sequence with
    every system message replaced by any other or by none. *)
Theorem system_message_ignored (calls : list Call) (sm : option pystr)
    (st : Client) :
  run_calls (map (ConsoleObs.with_system sm) calls) st = run_calls calls st.
Proof.
  revert st. induction calls as [|c calls IH]; intros st; [done|].
  simpl.
  change (run_call (ConsoleObs.with_system sm c) st) with (run_call c st).
  destruct (run_call c st) as [o st1]. by rewrite IH.
Qed.

Ltac leaf :=
  cbn [snd trace with_trace with_history]; rewrite <- ?app_assoc;
  simpl; eexists; reflexivity.

Lemma body_starts_chat (w : World) (um : pystr) (mt : Z) (temp : pyval)
    (st : Client) :
  exists tl,
    trace (snd (chat_completion_body w um mt temp st))
    = trace st
      ++ EvStartChat (conversation_history st)
           (map format_msg (conversation_history st)) :: tl.
Proof.
  unfold chat_completion_body, bind, read_history, call_start_chat,
    call_send_message, lift.
  destruct (start_chat w _) as [c|e]; [|leaf].
  destruct (send_message w c um _ tools) as [[resp c']|e]; [|leaf].
  destruct (first_candidate resp) as [cont|e]; [|leaf].
  destruct (scan_parts _ [] []) as [rt tcs].
  destruct tcs as [|tc tcs]; [leaf|].
  cbn -[run_tool_calls].
  match goal with
  | |- context [run_tool_calls w ?l [] ?s] =>
    destruct (local_run_tool_calls w l [] s) as (evs & Hevs & Hst);
    destruct (run_tool_calls w l [] s) as [[trs|e] st4]
  end; simpl in Hst; subst st4; [|leaf].
  destruct (send_message w c' _ _ []) as [[fin c'']|e]; [|leaf].
  cbn. destruct (resp_text fin) as [ft|e]; leaf.
Qed.

(** Every call replays the whole stored history to the model when it
    starts the chat: one entry per stored entry, in order, with the same
    text; an entry of role "user" keeps its role and every other entry,
    tool results included, is sent with role "model". *)
Theorem chat_history_replayed (w : World) (um : pystr) (sm : option pystr)
    (mt : Z) (temp : pyval) (st : Client) :
  let h := conversation_history st in
  exists fh tl,
    trace (snd (chat_completion_with_tools w um sm mt temp st))
      = trace st ++ EvStartChat h fh :: tl
    /\ map g_text fh = map content h
    /\ Forall2 (fun m g =>
                  g_role g = if bool_decide (role m = lit "user")
                             then lit "user" else lit "model") h fh.
Proof.
  intros h. subst h. rewrite chat_completion_unfold. cbn [snd].
  destruct (body_starts_chat w um mt temp st) as (tl & ->).
  eexists _, tl. split; [reflexivity|].
  induction (conversation_history st) as [|m l [IHt IHr]]; simpl.
  - by split.
  - split; [by rewrite IHt|]. by constructor.
Qed.

End HistoryFacts.

(* ===================================================================== *)
(** ** The conversation loop *)
(* ===================================================================== *)

Section ConsoleFacts.

Import Py Chat Console ConsoleObs.

Variable lower : pystr -> pystr.

(** The loop over [a ++ b] is the loop over [a], then over [b] if it is
    still reading. *)
Lemma start_conversation_app (a b : list Stdin) (st : Client) :
  start_conversation lower (a ++ b) st
  = then_run (start_conversation lower a st) (start_conversation lower b).
Proof.
  revert st. induction a as [|i a IH]; intros st; simpl.
  - by destruct (start_conversation lower b st) as [[rs e] st2].
  - destruct i as [w s|e|]; [| apply IH | done].
    destruct (is_quit _); [done|].
    destruct (eqb (lower (strip s)) (lit "history")); [apply IH|].
    destruct (eqb (lower (strip s)) (lit "clear")); [apply IH|].
    destruct (negb (truthy (strip s))); [apply IH|].
    destruct (chat_completion_with_tools w _ _ _ _ st) as [[r|e] st1];
      [|apply IH].
    rewrite IH. unfold then_run.
    destruct (start_conversation lower a st1) as [[rs e] st2].
    destruct e; try done.
    by destruct (start_conversation lower b st2) as [[rs' e'] st3].
Qed.

(** A quit command ends the loop: whatever was typed before it, nothing
    that comes after it is read, and the loop is not reading any more. *)
Theorem quit_ends_loop (pre post : list Stdin) (w : World) (q : pystr)
    (st : Client) :
  is_quit (lower (strip q)) = true ->
  start_conversation lower (pre ++ Line w q :: post) st
    = start_conversation lower (pre ++ [Line w q]) st
  /\ snd (fst (start_conversation lower (pre ++ Line w q :: post) st)) <> Reading.
Proof.
  intros Hq. rewrite !start_conversation_app. simpl. rewrite Hq.
  split; [done|]. unfold then_run.
  destruct (start_conversation lower pre st) as [[rs e] st1].
  by destruct e.
Qed.

(** Blank lines, the history command and failed reads never reach the
    model and leave the object as it is; the loop keeps reading. *)
Theorem inert_inputs_change_nothing (inputs : list Stdin) (st : Client) :
  Forall (inert lower) inputs ->
  start_conversation lower inputs st = ([], Reading, st).
Proof.
  induction 1 as [|i inputs Hi _ IH]; [done|]. simpl.
  destruct i as [w s|e|]; [|done|done].
  destruct Hi as [Hq [Hh|[Hc Hblank]]]; rewrite Hq.
  - unfold eqb. by rewrite bool_decide_eq_true_2.
  - unfold eqb. rewrite Hblank in *.
    destruct (bool_decide (lower [] = lit "history")); [done|].
    by rewrite bool_decide_eq_false_2.
Qed.

(** After the clear command nothing of the earlier conversation is left:
    the rest of the session runs as from an empty history, whatever the
    history was. *)
Theorem clear_forgets (w : World) (c : pystr) (rest : list Stdin)
    (st : Client) (h0 : list Msg) :
  lower (strip c) = lit "clear" ->
  start_conversation lower (Line w c :: rest) st
    = start_conversation lower rest (with_history st [])
  /\ start_conversation lower (Line w c :: rest) (with_history st h0)
     = start_conversation lower (Line w c :: rest) st.
Proof.
  intros Hc. simpl. rewrite Hc.
  change (is_quit (lit "clear")) with false.
  change (eqb (lit "clear") (lit "history")) with false.
  change (eqb (lit "clear") (lit "clear")) with true.
  done.
Qed.

End ConsoleFacts.

Section ConsoleWitnesses.

Import Py Chat Console ConsoleObs.

Lemma quit_ends_loop_witness :
  is_quit (ascii_lower (strip (lit " Quit "))) = true
  /\ start_conversation ascii_lower
       ([Line Demo.direct (lit "hi")]
        ++ Line Demo.direct (lit " Quit ") :: [Line Demo.direct (lit "more")])
       Demo.fresh
     = start_conversation ascii_lower
         ([Line Demo.direct (lit "hi")] ++ [Line Demo.direct (lit " Quit ")])
         Demo.fresh.
Proof.
  split; [vm_compute; reflexivity|].
  apply (quit_ends_loop ascii_lower [Line Demo.direct (lit "hi")]
           [Line Demo.direct (lit "more")] Demo.direct (lit " Quit ") Demo.fresh).
  vm_compute; reflexivity.
Defined.

Lemma inert_inputs_change_nothing_witness :
  Forall (inert ascii_lower) idle_inputs
  /\ start_conversation ascii_lower idle_inputs Demo.fresh
     = ([], Reading, Demo.fresh).
Proof.
  assert (H : Forall (inert ascii_lower) idle_inputs).
  { constructor; [|constructor; [|constructor; [exact I|constructor]]].
    - split; [reflexivity|]. right. split; [|reflexivity].
      vm_compute. discriminate.
    - split; [reflexivity|]. left. reflexivity. }
  split; [exact H|].
  exact (inert_inputs_change_nothing ascii_lower idle_inputs Demo.fresh H).
Defined.

Lemma clear_forgets_witness :
  ascii_lower (strip (lit "Clear")) = lit "clear"
  /\ start_conversation ascii_lower
       (Line Demo.direct (lit "Clear") :: [Line Demo.direct (lit "hi")])
       (with_history Demo.fresh [user_msg (lit "old")])
     = start_conversation ascii_lower
         (Line Demo.direct (lit "Clear") :: [Line Demo.direct (lit "hi")])
         Demo.fresh.
Proof.
  split; [vm_compute; reflexivity|].
  apply (clear_forgets ascii_lower Demo.direct (lit "Clear")
           [Line Demo.direct (lit "hi")] Demo.fresh [user_msg (lit "old")]).
  vm_compute; reflexivity.
Defined.

(** A short session: a greeting, the clear command, a weather question,
    and the quit command. *)
Example session :
  let '(rs, e, st) :=
    start_conversation ascii_lower
      [Line Demo.direct (lit " hello ");
       Line Demo.direct (lit "CLEAR");
       Line (Demo.asking PNone Demo.weather_full) (lit "weather?");
       Line Demo.direct (lit "bye");
       Line Demo.direct (lit "ignored")]
      Demo.fresh in
  rs = [lit "Hello!"; lit "It is clear in Paris."]
  /\ e = Left
  /\ map role (conversation_history st)
     = [lit "user"; lit "assistant"; lit "tool"; lit "assistant"].
Proof. vm_compute. repeat split. Qed.

End ConsoleWitnesses.
